(** * myGit: the interactive session loop of [src/index.js]

    The tool is a menu over two collaborators: the [simple-git] command
    surface and the [inquirer] prompt device.  Every handler is a sequence of
    awaited collaborator calls, [console.log] lines, [try]/[catch] blocks and
    [process.exit] calls.  The handlers are embedded as finite interaction
    trees ([Prog]) over the collaborator commands ([Cmd]); a run against an
    arbitrary collaborator ([respond]) yields the trace of calls and printed
    lines, the outcome (returned, thrown, exited) and the collaborator's final
    state.  The embedding follows the looping [main] and its handlers; the
    earlier single-pass [main] that the source file also carries is embedded
    apart, in [Legacy]. *)

From Stdlib Require Import String List ZArith Bool Arith Lia DecimalString.
Import ListNotations.
Local Open Scope string_scope.

(** ** Values exchanged with the collaborators *)

(** A rejected promise or thrown [Error]: the fields the code reads. *)
Record Err : Type := mkErr {
  message : string;
  stderr : option string;
  isTtyError : bool
}.

(** [new Error(msg)] *)
Definition Error (msg : string) : Err :=
  {| message := msg; stderr := None; isTtyError := false |}.

Record RemoteRefs : Type := mkRefs { fetch : string; push : string }.
Record Remote : Type := mkRemote { name : string; refs : RemoteRefs }.

Module Branch.
(** Result of [git.branch()] and [git.branchLocal()]. *)
Record t : Type := mk { current : string; all : list string }.
End Branch.

Module Status.
(** Result of [git.status()]. *)
Record t : Type := mk {
  current : string;
  tracking : option string;
  ahead : nat;
  behind : nat;
  modified : list string;
  not_added : list string;
  staged : list string
}.
End Status.

Record PullSummary : Type :=
  mkSummary { changes : nat; insertions : nat; deletions : nat }.
Record PullResult : Type := mkPull { summary : PullSummary }.

(** ** JavaScript operators used by the handlers *)

(** Truthiness of a value that is a string or [undefined]/[null]. *)
Definition truthy (v : option string) : bool :=
  match v with
  | Some s => negb (s =? "")
  | None => false
  end.

(** [a || b] on such values. *)
Definition js_or (a b : option string) : option string :=
  if truthy a then a else b.

(** [x?.name] *)
Definition opt_name (r : option Remote) : option string := option_map name r.

(** A value interpolated in a template literal. *)
Definition interpolate (v : option string) : string :=
  match v with
  | Some s => s
  | None => "undefined"
  end.

(** A number interpolated in a template literal. *)
Definition show_nat (n : nat) : string := NilEmpty.string_of_uint (Nat.to_uint n).

(** ** Menu labels *)

Module ACTIONS.
Definition STATUS := "查看状态 (git status)".
Definition COMMIT_PUSH := "提交代码 (add. && commit && pull && push)".
Definition PULL := "拉取代码 (git pull)".
Definition PUSH := "推送代码 (git push)".
Definition BRANCH_MANAGE := "分支管理 (查看/切换分支)".
Definition MERGE := "合并分支".
Definition REMOTE_MANAGE := "远程仓库管理".
Definition EXIT := "退出".
End ACTIONS.

Module REMOTE_ACTIONS.
Definition ADD := "添加远程仓库".
Definition UPDATE := "修改远程仓库地址".
Definition DELETE := "删除远程仓库".
Definition BACK := "返回".
End REMOTE_ACTIONS.

(** ** Commands of the two collaborators *)

(** The only validator the code passes to a prompt:
    [(input) => input.trim().length > 0 || complaint]. *)
Inductive Validator : Type := NonBlank (complaint : string).

Inductive Question : Type :=
| QInput (qname qmessage : string) (default : option string) (validate : option Validator)
| QList (qname qmessage : string) (choices : list string) (default : option string)
| QConfirm (qname qmessage : string) (default : bool).

Inductive Cmd : Type :=
| GitCheckIsRepo
| GitBranch
| GitBranchLocal
| GitGetRemotes (verbose : bool)
| GitStatus
| GitAdd (files : string)
| GitCommit (msg : string)
| GitPull
| GitPush (remote : option string) (branch : string)
| GitCheckout (branch : string)
| GitMerge (options : list string)
| GitAddRemote (remoteName remoteRepo : string)
| GitRemote (options : list string)
| GitRemoveRemote (remoteName : string)
| Prompt (questions : list Question).

(** The answer to one question, and the answers object of a prompt. *)
Definition answer (q : Question) : Type :=
  match q with
  | QConfirm _ _ _ => bool
  | _ => string
  end.

Fixpoint answers (qs : list Question) : Type :=
  match qs with
  | [] => unit
  | q :: qs' => (answer q * answers qs')%type
  end.

(** What a fulfilled call resolves to. *)
Definition Resp (c : Cmd) : Type :=
  match c with
  | GitCheckIsRepo => bool
  | GitBranch | GitBranchLocal => Branch.t
  | GitGetRemotes _ => list Remote
  | GitStatus => Status.t
  | GitPull => PullResult
  | Prompt qs => answers qs
  | _ => unit
  end.

(** ** Terminal output *)

Inductive Color : Type := Red | Green | Blue | Yellow | Gray.

Inductive Shown : Type :=
| VFiles (files : list string)
| VSummary (s : PullSummary)
| VErr (e : Err).

Inductive Out : Type :=
| Line (c : Color) (text : string)              (* console.log(chalk.c(text)) *)
| LineWith (c : Color) (text : string) (v : Shown) (* console.log(chalk.c(text), v) *)
| Each (c : Color) (lines : list string)        (* xs.forEach(x => console.log(chalk.c(..x..))) *)
| Blank                                         (* console.log() *)
| ErrLine (c : Color) (text : string) (v : Shown). (* console.error(chalk.c(text), v) *)

(** ** Programs *)

Inductive Prog (R : Type) : Type :=
| Ret (r : R)
| Throw (e : Err)
| Exit (code : Z)
| Log (o : Out) (k : Prog R)
| Call (c : Cmd) (k : Err + Resp c -> Prog R).

Arguments Ret {R} r.
Arguments Throw {R} e.
Arguments Exit {R} code.
Arguments Log {R} o k.
Arguments Call {R} c k.

Fixpoint bind {A B : Type} (p : Prog A) (f : A -> Prog B) : Prog B :=
  match p with
  | Ret a => f a
  | Throw e => Throw e
  | Exit code => Exit code
  | Log o k => Log o (bind k f)
  | Call c k => Call c (fun r => bind (k r) f)
  end.

(** [try { p } catch (err) { h err }]: [process.exit] is not an exception. *)
Fixpoint try_catch {A : Type} (p : Prog A) (h : Err -> Prog A) : Prog A :=
  match p with
  | Ret a => Ret a
  | Throw e => h e
  | Exit code => Exit code
  | Log o k => Log o (try_catch k h)
  | Call c k => Call c (fun r => try_catch (k r) h)
  end.

(** [await c]: a rejection is rethrown at the await. *)
Definition call (c : Cmd) : Prog (Resp c) :=
  Call c (fun r => match r with inl e => Throw e | inr x => Ret x end).

Definition log (o : Out) : Prog unit := Log o (Ret tt).

(** [if (b) { p }] *)
Definition when (b : bool) (p : Prog unit) : Prog unit := if b then p else Ret tt.

Declare Scope prog_scope.
Delimit Scope prog_scope with prog.
Notation "x <- p ;; k" := (bind p (fun x => k))
  (at level 61, p at next level, right associativity) : prog_scope.
Notation "p ;; k" := (bind p (fun _ => k))
  (at level 61, right associativity) : prog_scope.
Local Open Scope prog_scope.

(** ** Runs *)

Inductive Outcome (R : Type) : Type :=
| Returned (r : R)
| Thrown (e : Err)
| Exited (code : Z).

Arguments Returned {R} r.
Arguments Thrown {R} e.
Arguments Exited {R} code.

(** What a call settled with, as it is recorded in a trace. *)
Inductive Ans : Type := AStr (s : string) | ABool (b : bool).

Inductive Reply : Type :=
| Failed (e : Err)
| RBool (b : bool)
| RBranch (b : Branch.t)
| RRemotes (l : list Remote)
| RStatus (s : Status.t)
| RPull (p : PullResult)
| RDone
| RAnswers (l : list Ans).

Definition reify_answer (q : Question) : answer q -> Ans :=
  match q with
  | QInput _ _ _ _ => AStr
  | QList _ _ _ _ => AStr
  | QConfirm _ _ _ => ABool
  end.

Fixpoint reify_answers (qs : list Question) : answers qs -> list Ans :=
  match qs with
  | [] => fun _ => []
  | q :: qs' => fun a => reify_answer q (fst a) :: reify_answers qs' (snd a)
  end.

Definition reify_ok (c : Cmd) : Resp c -> Reply :=
  match c with
  | GitCheckIsRepo => RBool
  | GitBranch => RBranch
  | GitBranchLocal => RBranch
  | GitGetRemotes _ => RRemotes
  | GitStatus => RStatus
  | GitPull => RPull
  | Prompt qs => fun a => RAnswers (reify_answers qs a)
  | _ => fun _ => RDone
  end.

Definition reify (c : Cmd) (r : Err + Resp c) : Reply :=
  match r with
  | inl e => Failed e
  | inr x => reify_ok c x
  end.

Inductive Entry : Type :=
| Called (c : Cmd) (r : Reply)
| Logged (o : Out).

Record Result (R W : Type) : Type := mkResult {
  trace : list Entry;
  outcome : Outcome R;
  world : W
}.

Arguments mkResult {R W} trace outcome world.
Arguments trace {R W} r.
Arguments outcome {R W} r.
Arguments world {R W} r.

Definition before {R W : Type} (e : Entry) (r : Result R W) : Result R W :=
  mkResult (e :: trace r) (outcome r) (world r).

(** A collaborator is a state [W] and a function answering each command. *)
Definition Collaborator (W : Type) : Type := forall c : Cmd, W -> (Err + Resp c) * W.

Fixpoint run {R W : Type} (respond : Collaborator W) (p : Prog R) (w : W) : Result R W :=
  match p with
  | Ret r => mkResult [] (Returned r) w
  | Throw e => mkResult [] (Thrown e) w
  | Exit code => mkResult [] (Exited code) w
  | Log o k => before (Logged o) (run respond k w)
  | Call c k =>
      let (r, w1) := respond c w in
      before (Called c (reify c r)) (run respond (k r) w1)
  end.

(** ** A scripted collaborator

    The state is the list of replies still to be given; a reply that does not
    fit the command, or an exhausted script, rejects the call. *)

Definition off_script : Err := Error "off script".

Definition decode_answer (q : Question) (a : Ans) : option (answer q) :=
  match q, a with
  | QInput _ _ _ _, AStr s => Some s
  | QList _ _ _ _, AStr s => Some s
  | QConfirm _ _ _, ABool b => Some b
  | _, _ => None
  end.

Fixpoint decode_answers (qs : list Question) (l : list Ans) : option (answers qs) :=
  match qs, l with
  | [], [] => Some tt
  | q :: qs', a :: l' =>
      match decode_answer q a, decode_answers qs' l' with
      | Some x, Some xs => Some (x, xs)
      | _, _ => None
      end
  | _, _ => None
  end.

Definition decode (c : Cmd) (r : Reply) : Err + Resp c :=
  match r with
  | Failed e => inl e
  | _ =>
    match c, r with
    | GitCheckIsRepo, RBool b => inr b
    | GitBranch, RBranch b => inr b
    | GitBranchLocal, RBranch b => inr b
    | GitGetRemotes _, RRemotes l => inr l
    | GitStatus, RStatus s => inr s
    | GitPull, RPull p => inr p
    | GitAdd _, RDone => inr tt
    | GitCommit _, RDone => inr tt
    | GitPush _ _, RDone => inr tt
    | GitCheckout _, RDone => inr tt
    | GitMerge _, RDone => inr tt
    | GitAddRemote _ _, RDone => inr tt
    | GitRemote _, RDone => inr tt
    | GitRemoveRemote _, RDone => inr tt
    | Prompt qs, RAnswers l =>
        match decode_answers qs l with
        | Some a => inr a
        | None => inl off_script
        end
    | _, _ => inl off_script
    end
  end.

Definition scripted : Collaborator (list Reply) :=
  fun c w =>
    match w with
    | [] => (inl off_script, [])
    | r :: w' => (decode c r, w')
    end.

(** ** The handlers of [src/index.js] *)

Section Handlers.

(** [String.prototype.trim], supplied by the JavaScript runtime. *)
Variable trim : string -> string.

(** What inquirer does with a validator: [true] accepts the input, a string
    is shown as the complaint and the question is asked again. *)
Definition validation (v : Validator) (input : string) : bool + string :=
  match v with
  | NonBlank complaint =>
      if (0 <? String.length (trim input))%nat then inl true else inr complaint
  end.

Definition handleError (err : Err) (operation : string) : Prog unit :=
  log (Line Red ("❌ " ++ operation ++ "失败: " ++ message err)) ;;
  when (truthy (stderr err))
       (log (Line Gray ("详细信息: " ++ interpolate (stderr err)))).

Definition getCurrentBranch : Prog string :=
  branchSummary <- call GitBranch ;;
  Ret (Branch.current branchSummary).

Definition getRemotes : Prog (list Remote) := call (GitGetRemotes true).

Definition getDefaultRemote : Prog (option string) :=
  remotes <- getRemotes ;;
  if (length remotes =? 0)%nat then Throw (Error "没有配置远程仓库")
  else Ret (js_or (opt_name (find (fun r => name r =? "origin") remotes))
                  (opt_name (nth_error remotes 0))).

Definition checkIsRepo : Prog unit :=
  isRepo <- call GitCheckIsRepo ;;
  if negb isRepo
  then Log (Line Red "❌ 当前目录不是一个 Git 仓库") (Exit 1)
  else Ret tt.

Definition showStatus : Prog unit :=
  try_catch
    (status <- call GitStatus ;;
     log (Line Green ("📂 当前分支: " ++ Status.current status)) ;;
     log (Line Blue ("🔗 跟踪分支: "
                     ++ interpolate (js_or (Status.tracking status) (Some "无")))) ;;
     log (Line Yellow ("📌 提交领先: " ++ show_nat (Status.ahead status)
                       ++ ", 落后: " ++ show_nat (Status.behind status))) ;;
     when (0 <? length (Status.modified status))%nat
          (log (LineWith Red "✏️ 已修改文件:" (VFiles (Status.modified status)))) ;;
     when (0 <? length (Status.not_added status))%nat
          (log (LineWith Yellow "📝 未跟踪文件:" (VFiles (Status.not_added status)))) ;;
     when (0 <? length (Status.staged status))%nat
          (log (LineWith Blue "✅ 已暂存文件:" (VFiles (Status.staged status)))) ;;
     when ((length (Status.modified status) =? 0)%nat
           && (length (Status.not_added status) =? 0)%nat
           && (length (Status.staged status) =? 0)%nat)
          (log (Line Green "✅ 工作区干净，没有修改")))
    (fun err => handleError err "查看状态").

(** [s.changes || s.insertions || s.deletions] as a condition. *)
Definition any_change (s : PullSummary) : bool :=
  negb (changes s =? 0)%nat || negb (insertions s =? 0)%nat || negb (deletions s =? 0)%nat.

Definition commitAndPush : Prog unit :=
  try_catch
    (currentBranch <- getCurrentBranch ;;
     status <- call GitStatus ;;
     if (length (Status.modified status) =? 0)%nat
        && (length (Status.not_added status) =? 0)%nat
     then log (Line Yellow "⚠️ 没有需要提交的变更")
     else
       a <- call (Prompt [QInput "msg" "请输入提交信息:" None
                                 (Some (NonBlank "提交信息不能为空"))]) ;;
       let msg := fst a in
       log (Line Blue "📦 正在添加文件...") ;;
       call (GitAdd ".") ;;
       log (Line Blue "💾 正在提交...") ;;
       call (GitCommit (trim msg)) ;;
       log (Line Green "✅ 提交成功") ;;
       pulled <- try_catch
         (log (Line Blue "⬇️ 正在拉取远程更新...") ;;
          pullResult <- call GitPull ;;
          log (Line Blue "⬇️ 已同步远程最新代码") ;;
          when (any_change (summary pullResult))
               (log (LineWith Yellow "📌 本地有变更已合并: "
                              (VSummary (summary pullResult)))) ;;
          Ret true)
         (fun err =>
            handleError err "拉取" ;;
            log (Line Yellow "⚠️ 拉取失败，跳过推送以避免冲突") ;;
            Ret false) ;;
       if pulled
       then
         try_catch
           (remote <- getDefaultRemote ;;
            log (Line Blue ("🚀 正在推送到 " ++ interpolate remote ++ "/"
                            ++ currentBranch ++ "...")) ;;
            call (GitPush remote currentBranch) ;;
            log (Line Green ("🚀 已成功推送到 " ++ interpolate remote ++ "/"
                             ++ currentBranch)))
           (fun err => handleError err "推送")
       else Ret tt)
    (fun err => handleError err "提交代码").

Definition pullCode : Prog unit :=
  try_catch
    (log (Line Blue "⬇️ 正在拉取代码...") ;;
     result <- call GitPull ;;
     log (Line Green "⬇️ 拉取完成") ;;
     if any_change (summary result)
     then log (LineWith Yellow "📌 更新内容:" (VSummary (summary result)))
     else log (Line Green "✅ 已是最新版本"))
    (fun err => handleError err "拉取").

Definition pushCode : Prog unit :=
  try_catch
    (remotes <- getRemotes ;;
     if (length remotes =? 0)%nat
     then log (Line Red "⚠️ 当前没有配置远程仓库")
     else
       currentBranch <- getCurrentBranch ;;
       a <- call (Prompt [QList "remote" "选择远程仓库:" (map name remotes) None;
                          QInput "branch" "输入要推送的分支:" (Some currentBranch) None]) ;;
       let remote := fst a in
       let branch := fst (snd a) in
       log (Line Blue ("🚀 正在推送到 " ++ remote ++ "/" ++ branch ++ "...")) ;;
       call (GitPush (Some remote) branch) ;;
       log (Line Green "🚀 推送完成"))
    (fun err => handleError err "推送").

Definition manageBranches : Prog unit :=
  try_catch
    (branches <- call GitBranchLocal ;;
     let currentBranch := Branch.current branches in
     log (Line Blue ("📂 当前分支: " ++ currentBranch)) ;;
     log (Line Blue "📋 所有分支:") ;;
     log (Each Gray
            (map (fun branch =>
                    (if branch =? currentBranch then "👉 " else "   ") ++ branch)
                 (Branch.all branches))) ;;
     a <- call (Prompt [QList "branch" "选择要切换的分支:" (Branch.all branches)
                              (Some currentBranch)]) ;;
     let branch := fst a in
     if branch =? currentBranch
     then log (Line Yellow "⚠️ 已经是当前分支")
     else
       log (Line Blue ("🔄 正在切换到分支: " ++ branch ++ "...")) ;;
       call (GitCheckout branch) ;;
       log (Line Green ("✅ 已切换到分支: " ++ branch)))
    (fun err => handleError err "切换分支").

Definition mergeBranch : Prog unit :=
  try_catch
    (currentBranch <- getCurrentBranch ;;
     branches <- call GitBranchLocal ;;
     let availableBranches :=
       filter (fun b => negb (b =? currentBranch)) (Branch.all branches) in
     if (length availableBranches =? 0)%nat
     then log (Line Yellow "⚠️ 没有其他分支可合并")
     else
       a <- call (Prompt [QList "branch"
                                ("选择要合并到 " ++ currentBranch ++ " 的分支:")
                                availableBranches None]) ;;
       let branch := fst a in
       c <- call (Prompt [QConfirm "confirm"
                                   ("确定要将 " ++ branch ++ " 合并到 "
                                    ++ currentBranch ++ " 吗?")
                                   false]) ;;
       let confirm := fst c in
       if negb confirm
       then log (Line Yellow "❌ 已取消合并")
       else
         log (Line Blue ("🔄 正在合并分支 " ++ branch ++ "...")) ;;
         call (GitMerge [branch]) ;;
         log (Line Green ("✅ 已成功合并分支 " ++ branch ++ " 到 " ++ currentBranch)))
    (fun err => handleError err "合并分支").

Definition addRemote : Prog unit :=
  try_catch
    (a <- call (Prompt [QInput "name" "请输入远程仓库名称:" (Some "origin")
                               (Some (NonBlank "名称不能为空"));
                        QInput "url" "请输入远程仓库地址:" None
                               (Some (NonBlank "地址不能为空"))]) ;;
     let name := fst a in
     let url := fst (snd a) in
     call (GitAddRemote (trim name) (trim url)) ;;
     log (Line Green ("✅ 已添加远程仓库 " ++ name ++ ": " ++ url)))
    (fun err => handleError err "添加远程仓库").

Definition updateRemote : Prog unit :=
  try_catch
    (remotes <- getRemotes ;;
     if (length remotes =? 0)%nat
     then log (Line Red "⚠️ 当前没有可修改的远程仓库")
     else
       a <- call (Prompt [QList "remoteName" "选择要修改的远程仓库:"
                                (map name remotes) None;
                          QInput "newUrl" "请输入新的远程仓库地址:" None
                                 (Some (NonBlank "地址不能为空"))]) ;;
       let remoteName := fst a in
       let newUrl := fst (snd a) in
       call (GitRemote ["set-url"; remoteName; trim newUrl]) ;;
       log (Line Green ("✅ 已修改远程仓库 " ++ remoteName ++ " 地址为: " ++ newUrl)))
    (fun err => handleError err "修改远程仓库").

Definition deleteRemote : Prog unit :=
  try_catch
    (remotes <- getRemotes ;;
     if (length remotes =? 0)%nat
     then log (Line Red "⚠️ 当前没有可删除的远程仓库")
     else
       a <- call (Prompt [QList "remoteName" "选择要删除的远程仓库:"
                                (map name remotes) None]) ;;
       let remoteName := fst a in
       c <- call (Prompt [QConfirm "confirm"
                                   ("确定要删除远程仓库 " ++ remoteName ++ " 吗?")
                                   false]) ;;
       let confirm := fst c in
       if negb confirm
       then log (Line Yellow "❌ 已取消删除")
       else
         call (GitRemoveRemote remoteName) ;;
         log (Line Green ("🗑️ 已删除远程仓库: " ++ remoteName)))
    (fun err => handleError err "删除远程仓库").

Definition remoteMenu : Cmd :=
  Prompt [QList "remoteAction" "选择远程仓库操作:"
                [REMOTE_ACTIONS.ADD; REMOTE_ACTIONS.UPDATE;
                 REMOTE_ACTIONS.DELETE; REMOTE_ACTIONS.BACK]
                None].

Definition manageRemotes : Prog unit :=
  remotes <- getRemotes ;;
  (if (length remotes =? 0)%nat
   then log (Line Yellow "⚠️ 当前没有配置远程仓库")
   else
     log (Line Blue "📡 当前远程仓库:") ;;
     log (Each Green
            (map (fun r => "  - " ++ name r ++ ": " ++ fetch (refs r)) remotes))) ;;
  a <- call remoteMenu ;;
  let remoteAction := fst a in
  if remoteAction =? REMOTE_ACTIONS.ADD then addRemote
  else if remoteAction =? REMOTE_ACTIONS.UPDATE then updateRemote
  else if remoteAction =? REMOTE_ACTIONS.DELETE then deleteRemote
  else Ret tt.

Definition mainMenu : Cmd :=
  Prompt [QList "action" "请选择要执行的操作"
                [ACTIONS.STATUS; ACTIONS.COMMIT_PUSH; ACTIONS.PULL; ACTIONS.PUSH;
                 ACTIONS.BRANCH_MANAGE; ACTIONS.MERGE; ACTIONS.REMOTE_MANAGE;
                 ACTIONS.EXIT]
                None].

Definition showMainMenu : Prog string :=
  currentBranch <- getCurrentBranch ;;
  log (Line Blue ("
📂 当前分支: " ++ currentBranch ++ "
")) ;;
  a <- call mainMenu ;;
  Ret (fst a).

Definition executeAction (action : string) : Prog unit :=
  if action =? ACTIONS.STATUS then showStatus
  else if action =? ACTIONS.COMMIT_PUSH then commitAndPush
  else if action =? ACTIONS.PULL then pullCode
  else if action =? ACTIONS.PUSH then pushCode
  else if action =? ACTIONS.BRANCH_MANAGE then manageBranches
  else if action =? ACTIONS.MERGE then mergeBranch
  else if action =? ACTIONS.REMOTE_MANAGE then manageRemotes
  else if action =? ACTIONS.EXIT
       then Log (Line Blue "👋 退出 myGit") (Exit 0)
  else Ret tt.

(** The message of the pause prompt is [chalk.gray("按回车键继续...")]. *)
Definition pausePrompt : Cmd :=
  Prompt [QInput "continue" "按回车键继续..." None None].

Definition waitForContinue : Prog unit :=
  call pausePrompt ;; Ret tt.

(** The [try] block of one pass of [while (true)] in [main]. *)
Definition attempt : Prog unit :=
  action <- showMainMenu ;;
  executeAction action ;;
  if negb (action =? ACTIONS.EXIT)
  then waitForContinue ;; log Blank
  else Ret tt.

(** Its [catch] block. *)
Definition recover (err : Err) : Prog unit :=
  if isTtyError err
  then Log (Line Red "❌ 当前环境不支持交互式操作") (Exit 1)
  else
    handleError err "执行操作" ;;
    try_catch waitForContinue (fun waitErr => Ret tt).

Definition iteration : Prog unit := try_catch attempt recover.

(** [while (true)] unrolled [fuel] times; a loop that is still running when
    the fuel is spent returns [StillLooping]. *)
Inductive Running : Type := StillLooping.

Fixpoint loop (fuel : nat) : Prog Running :=
  match fuel with
  | O => Ret StillLooping
  | S n => iteration ;; loop n
  end.

Definition main (fuel : nat) : Prog Running :=
  checkIsRepo ;; loop fuel.

(** [main().catch(err => { console.error(..., err); process.exit(1) })] *)
Definition program (fuel : nat) : Prog Running :=
  try_catch (main fuel)
    (fun err => Log (ErrLine Red "❌ 发生未预期的错误:" (VErr err)) (Exit 1)).

End Handlers.

Arguments executeAction trim action : simpl never.
Arguments recover err : simpl never.

(** ** Reasoning about all collaborators at once

    [sat p Q]: whatever the collaborators answer, the trace and outcome of [p]
    satisfy [Q]. *)

Fixpoint sat {R : Type} (p : Prog R) (Q : list Entry -> Outcome R -> Prop) : Prop :=
  match p with
  | Ret r => Q [] (Returned r)
  | Throw e => Q [] (Thrown e)
  | Exit code => Q [] (Exited code)
  | Log o k => sat k (fun tr out => Q (Logged o :: tr) out)
  | Call c k => forall r, sat (k r) (fun tr out => Q (Called c (reify c r) :: tr) out)
  end.

(** ** Observations on traces *)

Definition is_push (e : Entry) : bool :=
  match e with Called (GitPush _ _) _ => true | _ => false end.

Definition is_merge (e : Entry) : bool :=
  match e with Called (GitMerge _) _ => true | _ => false end.

Definition pull_failed (e : Entry) : bool :=
  match e with Called GitPull (Failed _) => true | _ => false end.

(** The calls of the commit-and-sync sequence: add, commit, pull, push. *)
Definition is_sync_call (e : Entry) : bool :=
  match e with
  | Called (GitAdd _) _ | Called (GitCommit _) _
  | Called GitPull _ | Called (GitPush _ _) _ => true
  | _ => false
  end.

(** A prompt with the single question named [n]. *)
Definition asks (n : string) (c : Cmd) : bool :=
  match c with
  | Prompt [QInput qn _ _ _] => qn =? n
  | Prompt [QList qn _ _ _] => qn =? n
  | Prompt [QConfirm qn _ _] => qn =? n
  | _ => false
  end.

Definition is_pause (e : Entry) : bool :=
  match e with Called c _ => asks "continue" c | _ => false end.

Definition is_menu (e : Entry) : bool :=
  match e with Called c _ => asks "action" c | _ => false end.

Definition pause_failed (e : Entry) : bool :=
  match e with Called c (Failed _) => asks "continue" c | _ => false end.

(** A call that failed with an error flagged [isTtyError]. *)
Definition tty_failure (e : Entry) : bool :=
  match e with Called _ (Failed err) => isTtyError err | _ => false end.

Definition count (f : Entry -> bool) (tr : list Entry) : nat := length (filter f tr).

(** The action chosen at the main menu, if the menu was answered. *)
Fixpoint selected (tr : list Entry) : option string :=
  match tr with
  | [] => None
  | Called c (RAnswers [AStr a]) :: tr' => if asks "action" c then Some a else selected tr'
  | _ :: tr' => selected tr'
  end.

(** The error of the call the trace ends with, if it ends with a failed call. *)
Definition last_error (tr : list Entry) : option Err :=
  match last tr (Logged Blank) with
  | Called _ (Failed e) => Some e
  | _ => None
  end.

Definition ends_with (suffix tr : list Entry) : Prop :=
  exists front, tr = (front ++ suffix)%list.

(** The lines [handleError err operation] prints. *)
Definition report (err : Err) (operation : string) : list Entry :=
  Logged (Line Red ("❌ " ++ operation ++ "失败: " ++ message err))
  :: (if truthy (stderr err)
      then [Logged (Line Gray ("详细信息: " ++ interpolate (stderr err)))]
      else []).

Definition fatal_line : Entry := Logged (Line Red "❌ 当前环境不支持交互式操作").
Definition farewell_line : Entry := Logged (Line Blue "👋 退出 myGit").
Definition not_repo_line : Entry := Logged (Line Red "❌ 当前目录不是一个 Git 仓库").
Definition unexpected_line (e : Err) : Entry :=
  Logged (ErrLine Red "❌ 发生未预期的错误:" (VErr e)).

(** An entry a handler may produce: anything but the main menu, the pause
    prompt and the repository check, which belong to [main]. *)
Definition inner (e : Entry) : bool :=
  match e with
  | Called GitCheckIsRepo _ => false
  | Called c _ => negb (asks "action" c || asks "continue" c)
  | Logged _ => true
  end.

(** An entry that is neither put to the main menu nor a repository check. *)
Definition plain (x : Entry) : bool :=
  match x with
  | Called GitCheckIsRepo _ => false
  | Called c _ => negb (asks "action" c)
  | Logged _ => true
  end.

(** ** The shape of one pass of the loop

    [Recovered e] describes what the [catch] block of the loop does with the
    error [e]; [Pass] lists the ways one pass of [while (true)] can go.  Both
    are derived from the code by [recover_recovered] and [iteration_pass]. *)

Definition menu_head (b : Branch.t) : list Entry :=
  [Called GitBranch (RBranch b);
   Logged (Line Blue ("
📂 当前分支: " ++ Branch.current b ++ "
"))].

Inductive Recovered (e : Err) : list Entry -> Outcome unit -> Prop :=
| Rec_fatal :
    isTtyError e = true ->
    Recovered e [fatal_line] (Exited 1)
| Rec_pause (answer : Reply) :
    isTtyError e = false ->
    Recovered e (report e "执行操作" ++ [Called pausePrompt answer])%list (Returned tt).

Inductive Pass : list Entry -> Outcome unit -> Prop :=
| Pass_branch_failed e rest out :
    Recovered e rest out ->
    Pass (Called GitBranch (Failed e) :: rest) out
| Pass_menu_failed b e rest out :
    Recovered e rest out ->
    Pass (menu_head b ++ Called mainMenu (Failed e) :: rest)%list out
| Pass_exit b :
    Pass (menu_head b
          ++ [Called mainMenu (RAnswers [AStr ACTIONS.EXIT]); farewell_line])%list
         (Exited 0)
| Pass_handler_threw b a h e rest out :
    a <> ACTIONS.EXIT ->
    forallb inner h = true ->
    last_error h = Some e ->
    Recovered e rest out ->
    Pass (menu_head b ++ Called mainMenu (RAnswers [AStr a]) :: h ++ rest)%list out
| Pass_paused b a h s :
    a <> ACTIONS.EXIT ->
    forallb inner h = true ->
    Pass (menu_head b ++ Called mainMenu (RAnswers [AStr a]) :: h
          ++ [Called pausePrompt (RAnswers [AStr s]); Logged Blank])%list
         (Returned tt)
| Pass_pause_failed b a h e rest out :
    a <> ACTIONS.EXIT ->
    forallb inner h = true ->
    Recovered e rest out ->
    Pass (menu_head b ++ Called mainMenu (RAnswers [AStr a]) :: h
          ++ Called pausePrompt (Failed e) :: rest)%list
         out.

(** A handler that deals with every failure itself: it returns, and each
    failed call is reported through [handleError]. *)
Definition handled (tr : list Entry) (out : Outcome unit) : Prop :=
  forallb inner tr = true
  /\ out = Returned tt
  /\ forall c e, In (Called c (Failed e)) tr -> exists op, incl (report e op) tr.

(** A handler that may let a failed call escape. *)
Definition escapes (tr : list Entry) (out : Outcome unit) : Prop :=
  forallb inner tr = true
  /\ match out with
     | Returned _ => True
     | Thrown e => last_error tr = Some e
     | Exited _ => False
     end.

(** What [executeAction a] does, for every [a]. *)
Definition dispatched (a : string) (tr : list Entry) (out : Outcome unit) : Prop :=
  forallb inner tr = true
  /\ match out with
     | Returned _ => a <> ACTIONS.EXIT
     | Thrown e => a <> ACTIONS.EXIT /\ last_error tr = Some e
     | Exited code => a = ACTIONS.EXIT /\ code = 0%Z /\ tr = [farewell_line]
     end.

(** What holds of every run of the loop, however long. *)
Definition exit_cause (code : Z) (tr : list Entry) : Prop :=
  (code = 0%Z
   /\ ends_with [Called mainMenu (RAnswers [AStr ACTIONS.EXIT]); farewell_line] tr)
  \/ (code = 1%Z
      /\ exists c e, isTtyError e = true
                     /\ ends_with [Called c (Failed e); fatal_line] tr).

Definition looping {R : Type} (tr : list Entry) (out : Outcome R) : Prop :=
  (forall e, out <> Thrown e)
  /\ (forall code, out = Exited code -> exit_cause code tr)
  /\ (In (Called mainMenu (RAnswers [AStr ACTIONS.EXIT])) tr -> out = Exited 0)
  /\ (forall e, In (Called mainMenu (Failed e)) tr -> isTtyError e = true ->
                out = Exited 1
                /\ ends_with [Called mainMenu (Failed e); fatal_line] tr)
  /\ (forall r, ~ In (Called GitCheckIsRepo r) tr).

(** ** Concrete inputs *)

(** A [trim] for the examples: strips the ASCII white space at both ends. *)
Definition is_space (a : Ascii.ascii) : bool :=
  let n := Ascii.nat_of_ascii a in
  ((9 <=? n) && (n <=? 13) || (n =? 32))%nat.

Fixpoint trim_start (s : string) : string :=
  match s with
  | String a s' => if is_space a then trim_start s' else s
  | EmptyString => EmptyString
  end.

Fixpoint rev_string (s acc : string) : string :=
  match s with
  | String a s' => rev_string s' (String a acc)
  | EmptyString => acc
  end.

Definition ascii_trim (s : string) : string :=
  rev_string (trim_start (rev_string (trim_start s) "")) "".

Definition git_error : Err :=
  {| message := "fatal: unable to access remote"; stderr := Some "exit code 128";
     isTtyError := false |}.


Definition closed_error : Err := Error "User force closed the prompt".

Definition on_main : Branch.t := Branch.mk "main" ["main"; "dev"].

Definition dirty : Status.t :=
  Status.mk "main" (Some "origin/main") 0 0 ["README.md"] [] [].

Definition clean : Status.t :=
  Status.mk "main" (Some "origin/main") 0 0 [] [] ["staged.txt"].

Definition origin : Remote := mkRemote "origin" (mkRefs "git@host:o.git" "git@host:o.git").
Definition upstream : Remote := mkRemote "upstream" (mkRefs "git@host:u.git" "git@host:u.git").

Definition up_to_date : PullResult := mkPull (mkSummary 0 0 0).

(** Scripts: the replies of the collaborators, in the order of the calls. *)

(** Commit-and-sync with a change to commit; the pull is rejected. *)
Definition pull_rejected : list Reply :=
  [RBranch on_main; RStatus dirty; RAnswers [AStr " fix typo "]; RDone; RDone;
   Failed git_error].

(** Commit-and-sync with a change to commit and no remote configured. *)
Definition no_remote : list Reply :=
  [RBranch on_main; RStatus dirty; RAnswers [AStr "fix typo"]; RDone; RDone;
   RPull up_to_date; RRemotes []].

(** Commit-and-sync with nothing modified or untracked. *)
Definition nothing_changed : list Reply := [RBranch on_main; RStatus clean].

(** Merge: dev is chosen and the confirmation is declined. *)
Definition merge_declined : list Reply :=
  [RBranch on_main; RBranch on_main; RAnswers [AStr "dev"]; RAnswers [ABool false]].

(** Merge when main is the only local branch. *)
Definition only_main : list Reply :=
  [RBranch on_main; RBranch (Branch.mk "main" ["main"])].

(** A pass in which the branch query of the menu is rejected. *)
Definition branch_query_rejected : list Reply := [Failed git_error; RAnswers [AStr ""]].




(** A pass showing the status, after which the pause prompt is closed by the
    user and then acknowledged. *)
Definition pause_closed_once : list Reply :=
  [RBranch on_main; RAnswers [AStr ACTIONS.STATUS]; RStatus clean;
   Failed closed_error; RAnswers [AStr ""]].

(** A pass showing the status, acknowledged. *)
Definition status_then_pause : list Reply :=
  [RBranch on_main; RAnswers [AStr ACTIONS.STATUS]; RStatus clean; RAnswers [AStr ""]].

(** A pass in which exit is chosen. *)
Definition exit_chosen : list Reply := [RBranch on_main; RAnswers [AStr ACTIONS.EXIT]].

(** Remote management when the remote listing is rejected. *)
Definition listing_rejected : list Reply := [Failed git_error].

(** A pass choosing remote management, whose remote listing is rejected. *)
Definition remote_menu_listing_rejected : list Reply :=
  [RBranch on_main; RAnswers [AStr ACTIONS.REMOTE_MANAGE]; Failed git_error;
   RAnswers [AStr ""]].

(** The session: the repository check is rejected. *)
Definition check_rejected : list Reply := [Failed git_error].

(** The session: a repository, then exit is chosen. *)
Definition session_exit : list Reply := RBool true :: exit_chosen.

(** ** Further observations and inputs *)

Definition is_call (e : Entry) : bool :=
  match e with Called _ _ => true | Logged _ => false end.

Definition is_prompt (e : Entry) : bool :=
  match e with Called (Prompt _) _ => true | _ => false end.

Definition is_checkout (e : Entry) : bool :=
  match e with Called (GitCheckout _) _ => true | _ => false end.

Definition is_remove (e : Entry) : bool :=
  match e with Called (GitRemoveRemote _) _ => true | _ => false end.

Definition is_commit (e : Entry) : bool :=
  match e with Called (GitCommit _) _ => true | _ => false end.

Definition is_pull (e : Entry) : bool :=
  match e with Called GitPull _ => true | _ => false end.

(** A call that was rejected. *)
Definition call_failed (e : Entry) : bool :=
  match e with Called _ (Failed _) => true | _ => false end.

(** A run continued: the entries so far, then the rest of the run. *)
Definition after {R W : Type} (tr : list Entry) (r : Result R W) : Result R W :=
  mkResult (tr ++ trace r) (outcome r) (world r).

(** No call follows a failed call. *)
Fixpoint settled (tr : list Entry) : bool :=
  match tr with
  | [] => true
  | Called _ (Failed _) :: rest => negb (existsb is_call rest)
  | _ :: rest => settled rest
  end.

(** A status with nothing modified, untracked or staged. *)
Definition spotless : Status.t := Status.mk "main" (Some "origin/main") 0 0 [] [] [].

Definition three_changes : PullResult := mkPull (mkSummary 3 10 2).

(** Push: origin and main are answered. *)
Definition push_to_origin : list Reply :=
  [RRemotes [upstream; origin]; RBranch on_main;
   RAnswers [AStr "origin"; AStr "main"]; RDone].

(** Branch management: the current branch, then dev, is chosen. *)
Definition stay_on_main : list Reply := [RBranch on_main; RAnswers [AStr "main"]].
Definition switch_to_dev : list Reply := [RBranch on_main; RAnswers [AStr "dev"]; RDone].

(** Remote deletion, confirmed and declined. *)
Definition delete_origin : list Reply :=
  [RRemotes [origin]; RAnswers [AStr "origin"]; RAnswers [ABool true]; RDone].
Definition keep_origin : list Reply :=
  [RRemotes [origin]; RAnswers [AStr "origin"]; RAnswers [ABool false]].

(** Remote addition and update, typed with blanks around. *)
Definition add_origin : list Reply :=
  [RAnswers [AStr " origin "; AStr " git@host:o.git "]; RDone].
Definition move_origin : list Reply :=
  [RRemotes [origin]; RAnswers [AStr "origin"; AStr " git@host:new.git "]; RDone].

(** Commit-and-sync: the commit is rejected; everything succeeds. *)
Definition commit_rejected : list Reply :=
  [RBranch on_main; RStatus dirty; RAnswers [AStr "fix typo"]; RDone; Failed git_error].
Definition sync_succeeds : list Reply :=
  [RBranch on_main; RStatus dirty; RAnswers [AStr " fix typo "]; RDone; RDone;
   RPull up_to_date; RRemotes [upstream; origin]; RDone].

(** Remote management: one remote listed, then back. *)
Definition remote_menu_back : list Reply :=
  [RRemotes [origin]; RAnswers [AStr REMOTE_ACTIONS.BACK]].

(** ** The earlier, single-pass [main]

    The source file also carries the first version of the tool: one [main]
    that checks the repository, shows the menu once and runs the chosen case
    inline.  It prints in forms the looping version does not use, so it has
    its own output, trace and program types; commands, replies, outcomes and
    collaborators are shared. *)

Module Legacy.

Inductive Printed : Type :=
| Modern (o : Out)                              (* a form the looping version has too *)
| LineText (c : Color) (text arg : string)      (* console.log(chalk.c(text), err.message) *)
| Plain (text : string)                         (* console.log(text) *)
| Bare (v : Shown).                             (* console.log(v) *)

Inductive Entry : Type :=
| Called (c : Cmd) (r : Reply)
| Logged (o : Printed).

Inductive Prog (R : Type) : Type :=
| Ret (r : R)
| Throw (e : Err)
| Exit (code : Z)
| Log (o : Printed) (k : Prog R)
| Call (c : Cmd) (k : Err + Resp c -> Prog R).

Arguments Ret {R} r.
Arguments Throw {R} e.
Arguments Exit {R} code.
Arguments Log {R} o k.
Arguments Call {R} c k.

Fixpoint bind {A B : Type} (p : Prog A) (f : A -> Prog B) : Prog B :=
  match p with
  | Ret a => f a
  | Throw e => Throw e
  | Exit code => Exit code
  | Log o k => Log o (bind k f)
  | Call c k => Call c (fun r => bind (k r) f)
  end.

Fixpoint try_catch {A : Type} (p : Prog A) (h : Err -> Prog A) : Prog A :=
  match p with
  | Ret a => Ret a
  | Throw e => h e
  | Exit code => Exit code
  | Log o k => Log o (try_catch k h)
  | Call c k => Call c (fun r => try_catch (k r) h)
  end.

Definition call (c : Cmd) : Prog (Resp c) :=
  Call c (fun r => match r with inl e => Throw e | inr x => Ret x end).

Definition log (o : Printed) : Prog unit := Log o (Ret tt).

Definition when (b : bool) (p : Prog unit) : Prog unit := if b then p else Ret tt.

Declare Scope legacy_scope.
Delimit Scope legacy_scope with legacy.
Notation "x <- p ;; k" := (bind p (fun x => k))
  (at level 61, p at next level, right associativity) : legacy_scope.
Notation "p ;; k" := (bind p (fun _ => k))
  (at level 61, right associativity) : legacy_scope.
Local Open Scope legacy_scope.

Record Result (R W : Type) : Type := mkResult {
  trace : list Entry;
  outcome : Outcome R;
  world : W
}.

Arguments mkResult {R W} trace outcome world.
Arguments trace {R W} r.
Arguments outcome {R W} r.
Arguments world {R W} r.

Definition before {R W : Type} (e : Entry) (r : Result R W) : Result R W :=
  mkResult (e :: trace r) (outcome r) (world r).

Fixpoint run {R W : Type} (respond : Collaborator W) (p : Prog R) (w : W) : Result R W :=
  match p with
  | Ret r => mkResult [] (Returned r) w
  | Throw e => mkResult [] (Thrown e) w
  | Exit code => mkResult [] (Exited code) w
  | Log o k => before (Logged o) (run respond k w)
  | Call c k =>
      let (r, w1) := respond c w in
      before (Called c (reify c r)) (run respond (k r) w1)
  end.

Fixpoint sat {R : Type} (p : Prog R) (Q : list Entry -> Outcome R -> Prop) : Prop :=
  match p with
  | Ret r => Q [] (Returned r)
  | Throw e => Q [] (Thrown e)
  | Exit code => Q [] (Exited code)
  | Log o k => sat k (fun tr out => Q (Logged o :: tr) out)
  | Call c k => forall r, sat (k r) (fun tr out => Q (Called c (reify c r) :: tr) out)
  end.

Definition menu : Cmd :=
  Prompt [QList "action" "请选择要执行的操作"
                ["查看状态 (git status)";
                 "提交代码 (add. && commit && pull && push)";
                 "拉取代码 (git pull)";
                 "推送代码 (git push)";
                 "分支管理 (查看/切换分支)";
                 "合并分支";
                 "退出"]
                None].

Definition main : Prog unit :=
  isRepo <- call GitCheckIsRepo ;;
  (if negb isRepo
   then Log (Modern (Line Red "❌ 当前目录不是一个 Git 仓库")) (Exit 1)
   else Ret tt) ;;
  branchSummary <- call GitBranch ;;
  let currentBranch := Branch.current branchSummary in
  log (Modern (Line Blue ("📂 当前分支: " ++ currentBranch))) ;;
  a <- call menu ;;
  let action := fst a in
  if action =? "查看状态 (git status)" then
    status <- call GitStatus ;;
    log (Modern (Line Green ("📂 当前分支: " ++ Status.current status))) ;;
    log (Modern (Line Blue ("🔗 跟踪分支: "
                            ++ interpolate (js_or (Status.tracking status) (Some "无"))))) ;;
    log (Modern (Line Yellow ("📌 提交领先: " ++ show_nat (Status.ahead status)
                              ++ ", 落后: " ++ show_nat (Status.behind status)))) ;;
    if (0 <? length (Status.modified status))%nat
    then log (Modern (LineWith Red "✏️ 已修改文件:" (VFiles (Status.modified status))))
    else log (Modern (Line Green "✅ 没有修改文件"))
  else if action =? "提交代码 (add. && commit && pull && push)" then
    m <- call (Prompt [QInput "msg" "请输入提交信息:" None None]) ;;
    let msg := fst m in
    call (GitAdd ".") ;;
    call (GitCommit msg) ;;
    log (Modern (Line Green "✅ 提交成功")) ;;
    pulled <- try_catch
      (pullResult <- call GitPull ;;
       log (Modern (Line Blue "⬇️ 已同步远程最新代码")) ;;
       when (any_change (summary pullResult))
            (log (Modern (LineWith Yellow "📌 本地有变更已合并: "
                                   (VSummary (summary pullResult))))) ;;
       Ret true)
      (fun err =>
         log (LineText Red "❌ 拉取失败:" (message err)) ;;
         Ret false) ;;
    if pulled
    then
      try_catch
        (remotes <- call (GitGetRemotes true) ;;
         let remote :=
           js_or (opt_name (find (fun r => name r =? "origin") remotes))
                 (opt_name (nth_error remotes 0)) in
         call (GitPush remote currentBranch) ;;
         log (Modern (Line Green ("🚀 已自动推送到 " ++ interpolate remote ++ "/"
                                  ++ currentBranch))))
        (fun err => log (LineText Red "❌ 推送失败:" (message err)))
    else Ret tt
  else if action =? "拉取代码 (git pull)" then
    try_catch
      (result <- call GitPull ;;
       log (Modern (Line Green "⬇️ 拉取完成")) ;;
       log (Bare (VSummary (summary result))))
      (fun err => log (LineText Red "❌ 拉取失败:" (message err)))
  else if action =? "推送代码 (git push)" then
    remotes <- call (GitGetRemotes true) ;;
    p <- call (Prompt [QList "remote" "选择远程仓库:" (map name remotes) None;
                       QInput "branch" "输入要推送的分支:" (Some currentBranch) None]) ;;
    let remote := fst p in
    let branch := fst (snd p) in
    call (GitPush (Some remote) branch) ;;
    log (Modern (Line Green "🚀 推送完成"))
  else if action =? "分支管理 (查看/切换分支)" then
    branches <- call GitBranchLocal ;;
    p <- call (Prompt [QList "branch" "选择要切换的分支:" (Branch.all branches)
                             (Some (Branch.current branches))]) ;;
    let branch := fst p in
    call (GitCheckout branch) ;;
    log (Modern (Line Green ("✅ 已切换到分支: " ++ branch)))
  else if action =? "合并分支" then
    branches <- call GitBranchLocal ;;
    p <- call (Prompt [QList "branch" "选择要合并的分支:"
                             (filter (fun b => negb (b =? currentBranch))
                                     (Branch.all branches))
                             None]) ;;
    let branch := fst p in
    try_catch
      (call (GitMerge [branch]) ;;
       log (Modern (Line Green ("✅ 已合并分支 " ++ branch ++ " 到 " ++ currentBranch))))
      (fun err => log (LineText Red "❌ 合并失败:" (message err)))
  else if action =? "退出" then
    Log (Plain "👋 退出 myGit") (Exit 0)
  else Ret tt.

(** Observations on its traces. *)
Definition is_call (e : Entry) : bool :=
  match e with Called _ _ => true | Logged _ => false end.

Definition is_push (e : Entry) : bool :=
  match e with Called (GitPush _ _) _ => true | _ => false end.

Definition pull_failed (e : Entry) : bool :=
  match e with Called GitPull (Failed _) => true | _ => false end.

Definition is_confirm (e : Entry) : bool :=
  match e with Called (Prompt [QConfirm _ _ _]) _ => true | _ => false end.

(** The calls whose rejection no [try] of this [main] covers anywhere. *)
Definition unguarded (c : Cmd) : bool :=
  match c with
  | GitPull | GitMerge _ | GitPush _ _ | GitGetRemotes _ => false
  | _ => true
  end.

Local Close Scope legacy_scope.

End Legacy.

(** Scripts for the earlier [main]. *)
Definition legacy_pull_rejected : list Reply :=
  [RBool true; RBranch on_main;
   RAnswers [AStr "提交代码 (add. && commit && pull && push)"];
   RAnswers [AStr "fix typo"]; RDone; RDone; Failed git_error].

Definition legacy_no_remote : list Reply :=
  [RBool true; RBranch on_main;
   RAnswers [AStr "提交代码 (add. && commit && pull && push)"];
   RAnswers [AStr "fix typo"]; RDone; RDone; RPull up_to_date; RRemotes []; RDone].

Definition legacy_status_rejected : list Reply :=
  [RBool true; RBranch on_main; RAnswers [AStr "查看状态 (git status)"];
   Failed git_error].

Definition legacy_merge_dev : list Reply :=
  [RBool true; RBranch on_main; RAnswers [AStr "合并分支"];
   RBranch on_main; RAnswers [AStr "dev"]; RDone].

Definition legacy_stay_on_main : list Reply :=
  [RBool true; RBranch on_main; RAnswers [AStr "分支管理 (查看/切换分支)"];
   RBranch on_main; RAnswers [AStr "main"]; RDone].

(** ** Rules of [sat] *)

Lemma sat_run {R : Type} (p : Prog R) :
  forall (Q : list Entry -> Outcome R -> Prop),
    sat p Q ->
    forall (W : Type) (respond : Collaborator W) (w : W),
      Q (trace (run respond p w)) (outcome (run respond p w)).
Proof.
  induction p as [r | e | code | o k IH | c k IH]; simpl; intros Q HQ W respond w; auto.
  - exact (IH _ HQ W respond w).
  - destruct (respond c w) as [r w1]. simpl. exact (IH r _ (HQ r) W respond w1).
Qed.

Lemma sat_conseq {R : Type} (p : Prog R) :
  forall (P Q : list Entry -> Outcome R -> Prop),
    sat p P -> (forall tr out, P tr out -> Q tr out) -> sat p Q.
Proof.
  induction p as [r | e | code | o k IH | c k IH]; simpl; intros P Q HP HPQ; auto.
  - eapply IH; [exact HP | intros; auto].
  - intros r. eapply IH; [exact (HP r) | intros; auto].
Qed.

Lemma sat_bind {A B : Type} (p : Prog A) (f : A -> Prog B) :
  forall (Q : list Entry -> Outcome B -> Prop),
    sat p (fun tr out =>
             match out with
             | Returned a => sat (f a) (fun tr' out' => Q (tr ++ tr')%list out')
             | Thrown e => Q tr (Thrown e)
             | Exited code => Q tr (Exited code)
             end) ->
    sat (bind p f) Q.
Proof.
  induction p as [r | e | code | o k IH | c k IH]; simpl; intros Q H; auto.
Qed.

Lemma sat_try {A : Type} (p : Prog A) (h : Err -> Prog A) :
  forall (Q : list Entry -> Outcome A -> Prop),
    sat p (fun tr out =>
             match out with
             | Thrown e => sat (h e) (fun tr' out' => Q (tr ++ tr')%list out')
             | _ => Q tr out
             end) ->
    sat (try_catch p h) Q.
Proof.
  induction p as [r | e | code | o k IH | c k IH]; simpl; intros Q H; auto.
Qed.

(** Symbolic execution: one case per answer of the collaborators and per
    branch of the handler. *)
Ltac stuck_on p :=
  lazymatch p with
  | try_catch ?q _ => stuck_on q
  | bind ?q _ => stuck_on q
  | Log _ ?q => stuck_on q
  | match ?b with _ => _ end => b
  end.

Ltac exec_step :=
  lazymatch goal with
  | |- forall r : (Err + _)%type, _ => intros [?err | ?x]
  | |- sat ?p _ => let b := stuck_on p in destruct b eqn:?
  end; cbn; unfold when; cbn.

Ltac exec := cbn; unfold when; cbn; repeat exec_step.

Ltac in_trace := cbn; repeat first [left; reflexivity | right].

Ltac reported :=
  unfold report;
  repeat match goal with H : truthy _ = _ |- _ => rewrite H end;
  repeat (apply incl_cons; [in_trace |]); apply incl_nil_l.

(** ** Properties *)

(** Turn a goal about [run respond p w] into [sat p Q]. *)
Ltac by_sat respond w :=
  cbv zeta;
  lazymatch goal with
  | |- context [run respond ?p w] =>
      pattern (trace (run respond p w)), (outcome (run respond p w));
      lazymatch goal with
      | |- ?Q _ _ => refine (sat_run p Q _ _ respond w)
      end
  end.

Ltac failed_call H :=
  cbn in H;
  repeat (destruct H as [H | H]; try discriminate H; try contradiction H).

Ltac report_as ops :=
  lazymatch ops with
  | ?op :: ?rest => first [ exists op; solve [reported] | report_as rest ]
  end.

Ltac handled_with ops :=
  exec; (split; [reflexivity | split; [reflexivity |]]);
  (let c := fresh "c" in
   let e := fresh "e" in
   let H := fresh "H" in
   intros c e H; failed_call H;
   injection H as ? ?; subst; report_as ops).

Section Properties.

Variable trim : string -> string.

Lemma showStatus_handled : sat showStatus handled.
Proof. unfold showStatus. handled_with ["查看状态"]. Qed.

Lemma commitAndPush_handled : sat (commitAndPush trim) handled.
Proof. unfold commitAndPush. handled_with ["提交代码"; "拉取"; "推送"]. Qed.

Lemma pullCode_handled : sat pullCode handled.
Proof. unfold pullCode. handled_with ["拉取"]. Qed.

Lemma pushCode_handled : sat pushCode handled.
Proof. unfold pushCode. handled_with ["推送"]. Qed.

Lemma manageBranches_handled : sat manageBranches handled.
Proof. unfold manageBranches. handled_with ["切换分支"]. Qed.

Lemma mergeBranch_handled : sat mergeBranch handled.
Proof. unfold mergeBranch. handled_with ["合并分支"]. Qed.

Lemma addRemote_handled : sat (addRemote trim) handled.
Proof. unfold addRemote. handled_with ["添加远程仓库"]. Qed.

Lemma updateRemote_handled : sat (updateRemote trim) handled.
Proof. unfold updateRemote. handled_with ["修改远程仓库"]. Qed.

Lemma deleteRemote_handled : sat deleteRemote handled.
Proof. unfold deleteRemote. handled_with ["删除远程仓库"]. Qed.

Lemma manageRemotes_escapes : sat (manageRemotes trim) escapes.
Proof.
  unfold manageRemotes. exec.
  all: split; [reflexivity | first [exact I | reflexivity]].
Qed.

Lemma handled_dispatched (a : string) (p : Prog unit) :
  a <> ACTIONS.EXIT -> sat p handled -> sat p (dispatched a).
Proof.
  intros Ha Hp. eapply sat_conseq; [exact Hp |].
  intros tr out (Hin & -> & _). split; assumption.
Qed.

Lemma executeAction_dispatched (a : string) :
  sat (executeAction trim a) (dispatched a).
Proof.
  unfold executeAction.
  repeat match goal with
         | |- sat (if (?x =? ?y)%string then _ else _) _ =>
             let H := fresh "H" in
             destruct (x =? y)%string eqn:H;
             [apply String.eqb_eq in H | apply String.eqb_neq in H]
         end.
  1-6: apply handled_dispatched; [subst a; discriminate |].
  - apply showStatus_handled.
  - apply commitAndPush_handled.
  - apply pullCode_handled.
  - apply pushCode_handled.
  - apply manageBranches_handled.
  - apply mergeBranch_handled.
  - eapply sat_conseq; [apply manageRemotes_escapes |].
    assert (Ha : a <> ACTIONS.EXIT) by (subst a; discriminate).
    intros tr [u | e | code] [Hin Hout]; split; try assumption.
    + split; assumption.
    + contradiction.
  - cbn. repeat split; assumption.
  - cbn. split; [reflexivity | assumption].
Qed.

(** Every action other than remote management and exit deals with its
    failures itself. *)
Lemma other_actions_handled (a : string) :
  a <> ACTIONS.REMOTE_MANAGE -> a <> ACTIONS.EXIT ->
  sat (executeAction trim a) handled.
Proof.
  intros Hr He. unfold executeAction.
  repeat match goal with
         | |- sat (if (?x =? ?y)%string then _ else _) _ =>
             let H := fresh "H" in
             destruct (x =? y)%string eqn:H;
             [apply String.eqb_eq in H | apply String.eqb_neq in H]
         end.
  - apply showStatus_handled.
  - apply commitAndPush_handled.
  - apply pullCode_handled.
  - apply pushCode_handled.
  - apply manageBranches_handled.
  - apply mergeBranch_handled.
  - contradiction.
  - contradiction.
  - cbn. split; [reflexivity |]. split; [reflexivity |]. intros c e [].
Qed.

Lemma recover_recovered (e : Err) : sat (recover e) (Recovered e).
Proof.
  unfold recover. exec.
  - apply Rec_fatal; assumption.
  - apply (Rec_pause e (Failed err)) in Heqb.
    unfold report in Heqb. rewrite Heqb0 in Heqb. exact Heqb.
  - apply (Rec_pause e (RAnswers [AStr (fst x)])) in Heqb.
    unfold report in Heqb. rewrite Heqb0 in Heqb. exact Heqb.
  - apply (Rec_pause e (Failed err)) in Heqb.
    unfold report in Heqb. rewrite Heqb0 in Heqb. exact Heqb.
  - apply (Rec_pause e (RAnswers [AStr (fst x)])) in Heqb.
    unfold report in Heqb. rewrite Heqb0 in Heqb. exact Heqb.
Qed.

Lemma Pass_eq (tr tr' : list Entry) (out : Outcome unit) :
  Pass tr out -> tr = tr' -> Pass tr' out.
Proof. intros H <-. exact H. Qed.

Lemma iteration_pass : sat (iteration trim) Pass.
Proof.
  unfold iteration, attempt, showMainMenu. exec.
  - eapply sat_conseq; [apply recover_recovered |].
    intros tr out H. apply Pass_branch_failed. exact H.
  - eapply sat_conseq; [apply recover_recovered |].
    intros tr out H. apply (Pass_menu_failed x). exact H.
  - apply sat_try, sat_bind.
    eapply sat_conseq; [apply executeAction_dispatched |].
    intros h [u | e | code] [Hin Hout].
    + apply String.eqb_neq in Hout as Hne. rewrite Hne. exec.
      * eapply sat_conseq; [apply recover_recovered |].
        intros rest out H.
        eapply Pass_eq; [exact (Pass_pause_failed x _ h _ _ _ Hout Hin H) |].
        cbn. rewrite <- app_assoc. reflexivity.
      * eapply Pass_eq; [exact (Pass_paused x _ h (fst x1) Hout Hin) |].
        reflexivity.
    + destruct Hout as [Hne Hlast].
      eapply sat_conseq; [apply recover_recovered |].
      intros rest out H.
      exact (Pass_handler_threw x _ h _ _ _ Hne Hin Hlast H).
    + destruct Hout as (Ha & -> & ->). rewrite Ha. exact (Pass_exit x).
Qed.

(** *** Observations on the traces of a pass *)

Lemma count_app (f : Entry -> bool) (l1 l2 : list Entry) :
  count f (l1 ++ l2) = count f l1 + count f l2.
Proof. unfold count. rewrite filter_app, length_app. reflexivity. Qed.

Lemma inner_not_loop_prompt (e : Entry) :
  inner e = true -> is_pause e = false /\ is_menu e = false.
Proof.
  destruct e as [c r | o]; cbn; [| auto].
  destruct c; cbn; auto; try discriminate.
  intros H. apply negb_true_iff, orb_false_iff in H. destruct H; auto.
Qed.

Lemma inner_no_pause (h : list Entry) :
  forallb inner h = true -> count is_pause h = 0.
Proof.
  induction h as [| x h IH]; [reflexivity |].
  cbn. intros H. apply andb_true_iff in H. destruct H as [Hx Hh].
  apply inner_not_loop_prompt in Hx. destruct Hx as [Hp _].
  unfold count in *. cbn. rewrite Hp. auto.
Qed.

Lemma inner_In (h : list Entry) (x : Entry) :
  forallb inner h = true -> In x h -> inner x = true.
Proof. intros H. exact (proj1 (forallb_forall inner h) H x). Qed.

Lemma last_error_ends (h : list Entry) (e : Err) :
  last_error h = Some e -> exists c, ends_with [Called c (Failed e)] h.
Proof.
  unfold last_error, ends_with.
  induction h as [| x front _] using rev_ind.
  - discriminate.
  - rewrite last_last. destruct x as [c [] | o]; try discriminate.
    intros [= ->]. exists c, front. reflexivity.
Qed.

Lemma ends_with_app (suffix front tr : list Entry) :
  ends_with suffix tr -> ends_with suffix (front ++ tr).
Proof.
  intros [f ->]. exists (front ++ f)%list. rewrite app_assoc. reflexivity.
Qed.

(** C1. Commit-and-sync: in every run in which the pull call fails, push is
    not called; the failure is reported (the error's message under the
    pull operation, then the notice that push is skipped) and the handler
    returns. *)
Theorem failed_pull_suppresses_push :
  forall (W : Type) (respond : Collaborator W) (w : W),
    let r := run respond (commitAndPush trim) w in
    existsb pull_failed (trace r) = true ->
    existsb is_push (trace r) = false
    /\ outcome r = Returned tt
    /\ (exists e, In (Called GitPull (Failed e)) (trace r)
                  /\ incl (report e "拉取") (trace r))
    /\ In (Logged (Line Yellow "⚠️ 拉取失败，跳过推送以避免冲突")) (trace r).
Proof.
  intros W respond w. by_sat respond w. unfold commitAndPush. exec.
  all: try (intros; discriminate).
  all: intros _; repeat split; try reflexivity.
  all: try (eexists; split; [in_trace | reported]).
  all: in_trace.
Qed.

(** C2. Default remote selection: when the remote listing answers with a
    non-empty list, the default remote is "origin" if a remote of that name
    is in the list, and the name of the first remote otherwise; so
    upstream, origin gives "origin" and upstream alone gives "upstream". *)
Theorem default_remote_prefers_origin :
  forall (W : Type) (respond : Collaborator W) (w : W) (remotes : list Remote),
    let r := run respond getDefaultRemote w in
    In (Called (GitGetRemotes true) (RRemotes remotes)) (trace r) ->
    remotes <> [] ->
    ((exists x, In x remotes /\ name x = "origin") ->
     outcome r = Returned (Some "origin"))
    /\ ((forall x, In x remotes -> name x <> "origin") ->
        outcome r = Returned (option_map name (hd_error remotes)))
    /\ outcome (run scripted getDefaultRemote [RRemotes [upstream; origin]])
       = Returned (Some "origin")
    /\ outcome (run scripted getDefaultRemote [RRemotes [upstream]])
       = Returned (Some "upstream").
Proof.
  intros W respond w remotes. revert remotes. by_sat respond w.
  unfold getDefaultRemote. exec.
  all: intros remotes H Hne; failed_call H.
  all: injection H as ->.
  - destruct remotes; [congruence | discriminate].
  - repeat split; try reflexivity.
    + intros [x [Hin Hx]].
      destruct (find (fun r0 : Remote => name r0 =? "origin") remotes) as [y |] eqn:Hf.
      * apply find_some in Hf. destruct Hf as [_ Hy].
        apply String.eqb_eq in Hy. cbn. rewrite Hy. reflexivity.
      * apply (find_none _ _ Hf) in Hin. apply String.eqb_neq in Hin. contradiction.
    + intros Hno.
      destruct (find (fun r0 : Remote => name r0 =? "origin") remotes) as [y |] eqn:Hf.
      * apply find_some in Hf. destruct Hf as [Hy1 Hy2].
        apply String.eqb_eq in Hy2. elim (Hno y Hy1 Hy2).
      * destruct remotes; [congruence | reflexivity].
Qed.

(** C3. Commit-and-sync: when the status query answers with no modified and
    no untracked file (whatever is staged), the handler prints the warning
    and returns; the run consists of the branch query, the status query and
    the warning, so nothing is staged, committed, pulled or pushed. *)
Theorem nothing_to_commit_is_noop :
  forall (W : Type) (respond : Collaborator W) (w : W) (st : Status.t),
    let r := run respond (commitAndPush trim) w in
    In (Called GitStatus (RStatus st)) (trace r) ->
    Status.modified st = [] ->
    Status.not_added st = [] ->
    existsb is_sync_call (trace r) = false
    /\ outcome r = Returned tt
    /\ exists b,
         trace r = [Called GitBranch (RBranch b);
                    Called GitStatus (RStatus st);
                    Logged (Line Yellow "⚠️ 没有需要提交的变更")].
Proof.
  intros W respond w st. revert st. by_sat respond w.
  unfold commitAndPush. exec.
  all: intros st H Hm Hn; failed_call H.
  all: injection H as ->.
  all: try (rewrite Hm, Hn in *; discriminate).
  repeat split. eexists. reflexivity.
Qed.

(** C8. Merge: the list offered to the user is the local branches without
    the current branch, so the current branch is never among the choices;
    when every local branch is the current one the handler only prints the
    notice; and when the confirmation is declined no merge call is made. *)
Theorem merge_offers_other_branches :
  forall (W : Type) (respond : Collaborator W) (w : W),
    let r := run respond mergeBranch w in
    (forall cur loc qn qm choices d a,
        In (Called GitBranch (RBranch cur)) (trace r) ->
        In (Called GitBranchLocal (RBranch loc)) (trace r) ->
        In (Called (Prompt [QList qn qm choices d]) a) (trace r) ->
        choices = filter (fun b => negb (b =? Branch.current cur)) (Branch.all loc)
        /\ ~ In (Branch.current cur) choices)
    /\ (forall cur loc,
           In (Called GitBranch (RBranch cur)) (trace r) ->
           In (Called GitBranchLocal (RBranch loc)) (trace r) ->
           (forall b, In b (Branch.all loc) -> b = Branch.current cur) ->
           trace r = [Called GitBranch (RBranch cur);
                      Called GitBranchLocal (RBranch loc);
                      Logged (Line Yellow "⚠️ 没有其他分支可合并")]
           /\ outcome r = Returned tt)
    /\ (forall qn qm d,
           In (Called (Prompt [QConfirm qn qm d]) (RAnswers [ABool false])) (trace r) ->
           existsb is_merge (trace r) = false
           /\ outcome r = Returned tt
           /\ In (Logged (Line Yellow "❌ 已取消合并")) (trace r)).
Proof.
  intros W respond w. cbv zeta. split; [| split].
  - by_sat respond w. unfold mergeBranch. exec.
    all: intros cur loc qn qm choices d a H1 H2 H3.
    all: failed_call H1; failed_call H2; failed_call H3.
    all: injection H1 as ->; injection H2 as ->; injection H3 as _ _ <- _ _.
    all: split; [reflexivity |].
    all: intros Hin; apply filter_In in Hin; destruct Hin as [_ Hin].
    all: rewrite String.eqb_refl in Hin; discriminate Hin.
  - by_sat respond w. unfold mergeBranch. exec.
    all: intros cur loc H1 H2 Hall; failed_call H1; failed_call H2.
    all: injection H1 as ->; injection H2 as ->.
    all: try (split; reflexivity).
    all: exfalso.
    all: destruct (filter (fun b : string => negb (b =? Branch.current cur))
                          (Branch.all loc)) as [| b l] eqn:Hf; [discriminate |].
    all: assert (Hb : In b (b :: l)) by (left; reflexivity).
    all: rewrite <- Hf in Hb; apply filter_In in Hb; destruct Hb as [Hb1 Hb2].
    all: rewrite (Hall b Hb1), String.eqb_refl in Hb2; discriminate Hb2.
  - by_sat respond w. unfold mergeBranch. exec.
    all: intros qn qm d H; failed_call H.
    all: injection H as _ _ _ Hc.
    all: try (exfalso;
              match goal with
              | Hn : negb _ = false |- _ => rewrite Hc in Hn; discriminate Hn
              end).
    all: repeat split; in_trace.
Qed.

(** C10. getDefaultRemote always makes the remote listing; it rethrows a
    rejected listing and, when the listing answers, throws exactly when the
    list is empty.  So in a commit-and-sync run in which no call fails, the
    status shows a change and the listing answers with no remote, the stage,
    commit and pull steps are executed and then the push step reports the
    failure: no push call is made and the handler returns.  Seen from the
    trace: a run that finds no remote has already staged, committed and
    pulled. *)
Theorem no_remote_fails_at_push :
  forall (W : Type) (respond : Collaborator W) (w : W),
    let d := run respond getDefaultRemote w in
    let r := run respond (commitAndPush trim) w in
    (exists answer,
        trace d = [Called (GitGetRemotes true) answer]
        /\ (forall e, answer = Failed e -> outcome d = Thrown e)
        /\ (forall remotes,
               answer = RRemotes remotes ->
               ((exists e, outcome d = Thrown e) <-> remotes = [])))
    /\ (forall remotes,
           In (Called (GitGetRemotes true) (RRemotes remotes)) (trace d) ->
           ((exists e, outcome d = Thrown e) <-> remotes = []))
    /\ (existsb call_failed (trace r) = false ->
        (forall st, In (Called GitStatus (RStatus st)) (trace r) ->
                    Status.modified st <> [] \/ Status.not_added st <> []) ->
        (forall remotes, In (Called (GitGetRemotes true) (RRemotes remotes)) (trace r) ->
                         remotes = []) ->
        (exists typed p,
            In (Called (GitAdd ".") RDone) (trace r)
            /\ In (Called (GitCommit (trim typed)) RDone) (trace r)
            /\ In (Called GitPull (RPull p)) (trace r)
            /\ In (Called (GitGetRemotes true) (RRemotes [])) (trace r))
        /\ existsb is_push (trace r) = false
        /\ incl (report (Error "没有配置远程仓库") "推送") (trace r)
        /\ outcome r = Returned tt)
    /\ (In (Called (GitGetRemotes true) (RRemotes [])) (trace r) ->
        (exists msg p,
            In (Called (GitAdd ".") RDone) (trace r)
            /\ In (Called (GitCommit msg) RDone) (trace r)
            /\ In (Called GitPull (RPull p)) (trace r))
        /\ existsb is_push (trace r) = false
        /\ incl (report (Error "没有配置远程仓库") "推送") (trace r)
        /\ outcome r = Returned tt).
Proof.
  intros W respond w. cbv zeta. split; [| split; [| split]].
  - by_sat respond w. unfold getDefaultRemote. exec.
    + eexists. split; [reflexivity |]. split.
      * intros e [= <-]. reflexivity.
      * intros remotes H. discriminate H.
    + eexists. split; [reflexivity |]. split.
      * intros e H. discriminate H.
      * intros remotes [= <-]. split; [intros _ | intros _; eexists; reflexivity].
        destruct x; [reflexivity | discriminate].
    + eexists. split; [reflexivity |]. split.
      * intros e H. discriminate H.
      * intros remotes [= <-].
        split; [intros [e He]; discriminate He | intros ->; discriminate].
  - by_sat respond w. unfold getDefaultRemote. exec.
    all: intros remotes H; failed_call H.
    all: injection H as ->.
    + split; [intros _ | intros _; eexists; reflexivity].
      destruct remotes; [reflexivity | discriminate].
    + split; [intros [e He]; discriminate He | intros ->; discriminate].
  - by_sat respond w. unfold commitAndPush. exec.
    all: intros Hnone Hst Hrm; try discriminate Hnone.
    all: try (exfalso;
              destruct (Hst x0) as [Hc | Hc]; [in_trace | |];
              destruct x0 as [cur trk ah bh [| m ms] [| n ns] stg]; cbn in *;
              first [discriminate | apply Hc; reflexivity]).
    all: try (exfalso; assert (Hx : x5 = []) by (apply Hrm; in_trace);
              subst x5; discriminate).
    all: assert (Hx : x5 = []) by (apply Hrm; in_trace); subst x5.
    all: split; [exists (fst x1), x4; repeat split; in_trace |].
    all: split; [reflexivity |].
    all: split; [reported | reflexivity].
  - by_sat respond w. unfold commitAndPush. exec.
    all: intros H; failed_call H.
    all: injection H as H; try (subst; discriminate).
    all: split; [do 2 eexists; repeat split; in_trace |].
    all: split; [reflexivity |].
    all: split; [reported | reflexivity].
Qed.

End Properties.

Section LoopProperties.

Variable trim : string -> string.

Lemma count_report (e : Err) (op : string) : count is_pause (report e op) = 0.
Proof. unfold report. destruct (truthy (stderr e)); reflexivity. Qed.

Lemma selected_report (e : Err) (op : string) (rest : list Entry) :
  selected (report e op ++ rest) = selected rest.
Proof. unfold report. destruct (truthy (stderr e)); reflexivity. Qed.

Lemma recovered_not_selected (e : Err) (rest : list Entry) (out : Outcome unit) :
  Recovered e rest out -> selected rest = None.
Proof.
  intros [Ht | answer Ht]; [reflexivity |].
  rewrite selected_report. destruct answer as [| | | | | | | [| [] []]]; reflexivity.
Qed.

Lemma recovered_pauses (e : Err) (rest : list Entry) (out : Outcome unit) :
  Recovered e rest out ->
  out = Returned tt ->
  count is_pause rest = 1.
Proof.
  intros [Ht | answer Ht] Hout; [discriminate |].
  rewrite count_app, count_report. reflexivity.
Qed.

Lemma selected_answered (b : Branch.t) (a : string) (rest : list Entry) :
  selected (menu_head b ++ Called mainMenu (RAnswers [AStr a]) :: rest) = Some a.
Proof. reflexivity. Qed.

Lemma count_pause_menu (b : Branch.t) (answer : Reply) (rest : list Entry) :
  count is_pause (menu_head b ++ Called mainMenu answer :: rest)
  = count is_pause rest.
Proof. reflexivity. Qed.

(** The number of pause prompts in a pass in which the menu is answered. *)
Lemma pause_count_of_pass :
  forall (W : Type) (respond : Collaborator W) (w : W) (a : string),
    let r := run respond (iteration trim) w in
    selected (trace r) = Some a ->
    (a = ACTIONS.EXIT -> count is_pause (trace r) = 0)
    /\ (a <> ACTIONS.EXIT ->
        outcome r = Returned tt ->
        (existsb pause_failed (trace r) = false -> count is_pause (trace r) = 1)
        /\ (count is_pause (trace r) = 1 \/ count is_pause (trace r) = 2)).
Proof.
  intros W respond w a. by_sat respond w.
  eapply sat_conseq; [apply (iteration_pass trim) |].
  intros tr out HP.
  destruct HP as [e rest out HR | b e rest out HR | b | b a' h e rest out Ha Hin Hl HR
                 | b a' h s Ha Hin | b a' h e rest out Ha Hin HR].
  - change (selected (Called GitBranch (Failed e) :: rest)) with (selected rest).
    rewrite (recovered_not_selected _ _ _ HR). discriminate.
  - change (selected (menu_head b ++ Called mainMenu (Failed e) :: rest))
      with (selected rest).
    rewrite (recovered_not_selected _ _ _ HR). discriminate.
  - rewrite selected_answered. intros [= <-]. split; [reflexivity | congruence].
  - rewrite selected_answered, count_pause_menu. intros [= <-].
    split; [congruence |]. intros _ Hout.
    rewrite count_app, (inner_no_pause _ Hin), (recovered_pauses _ _ _ HR Hout).
    auto.
  - rewrite selected_answered, count_pause_menu. intros [= <-].
    split; [congruence |]. intros _ _.
    rewrite count_app, (inner_no_pause _ Hin). auto.
  - rewrite selected_answered, count_pause_menu. intros [= <-].
    split; [congruence |]. intros _ Hout.
    rewrite count_app, (inner_no_pause _ Hin).
    change (count is_pause (Called pausePrompt (Failed e) :: rest))
      with (S (count is_pause rest)).
    rewrite (recovered_pauses _ _ _ HR Hout). split; [| auto].
    intros Hnone. exfalso.
    assert (Hsome : existsb pause_failed
                      (menu_head b ++ Called mainMenu (RAnswers [AStr a']) :: h
                       ++ Called pausePrompt (Failed e) :: rest) = true).
    { apply existsb_exists. exists (Called pausePrompt (Failed e)).
      split; [| reflexivity].
      apply in_or_app. right. right. apply in_or_app. right. left. reflexivity. }
    rewrite Hsome in Hnone. discriminate Hnone.
Qed.

(** *** How runs compose *)

Lemma run_bind {A B W : Type} (respond : Collaborator W) (p : Prog A) (f : A -> Prog B) :
  forall w : W,
    run respond (bind p f) w
    = match outcome (run respond p w) with
      | Returned a =>
          after (trace (run respond p w)) (run respond (f a) (world (run respond p w)))
      | Thrown e => mkResult (trace (run respond p w)) (Thrown e) (world (run respond p w))
      | Exited code =>
          mkResult (trace (run respond p w)) (Exited code) (world (run respond p w))
      end.
Proof.
  induction p as [r | e | code | o k IH | c k IH]; intros w; cbn.
  - destruct (run respond (f r) w); reflexivity.
  - reflexivity.
  - reflexivity.
  - rewrite IH. destruct (run respond k w) as [t [] w']; reflexivity.
  - destruct (respond c w) as [r w1]. rewrite IH.
    destruct (run respond (k r) w1) as [t [] w']; reflexivity.
Qed.

Lemma run_try_catch {A W : Type} (respond : Collaborator W) (p : Prog A)
      (h : Err -> Prog A) :
  forall w : W,
    run respond (try_catch p h) w
    = match outcome (run respond p w) with
      | Thrown e =>
          after (trace (run respond p w)) (run respond (h e) (world (run respond p w)))
      | _ => run respond p w
      end.
Proof.
  induction p as [r | e | code | o k IH | c k IH]; intros w; cbn.
  - reflexivity.
  - destruct (run respond (h e) w); reflexivity.
  - reflexivity.
  - rewrite IH. destruct (run respond k w) as [t [] w']; reflexivity.
  - destruct (respond c w) as [r w1]. rewrite IH.
    destruct (run respond (k r) w1) as [t [] w']; reflexivity.
Qed.

Lemma run_handleError {W : Type} (respond : Collaborator W) (e : Err) (op : string) (w : W) :
  run respond (handleError e op) w = mkResult (report e op) (Returned tt) w.
Proof.
  unfold handleError, report, when. cbn. destruct (truthy (stderr e)); reflexivity.
Qed.

Lemma run_showMainMenu {W : Type} (respond : Collaborator W) (w w1 w2 : W)
      (b : Branch.t) (a : string) :
  respond GitBranch w = (inr b, w1) ->
  respond mainMenu w1 = (inr (a, tt), w2) ->
  run respond showMainMenu w
  = mkResult (menu_head b ++ [Called mainMenu (RAnswers [AStr a])]) (Returned a) w2.
Proof.
  intros H1 H2. unfold showMainMenu, getCurrentBranch. cbn.
  rewrite H1. cbn. fold mainMenu. rewrite H2. reflexivity.
Qed.

Lemma run_rejected_pause {W : Type} (respond : Collaborator W) (w w' : W) (e : Err) :
  respond pausePrompt w = (inl e, w') ->
  run respond waitForContinue w = mkResult [Called pausePrompt (Failed e)] (Thrown e) w'.
Proof. intros H. unfold waitForContinue. cbn. fold pausePrompt. rewrite H. reflexivity. Qed.

Lemma run_guarded_pause {W : Type} (respond : Collaborator W) (w : W) :
  run respond (try_catch waitForContinue (fun _ => Ret tt)) w
  = mkResult [Called pausePrompt (reify pausePrompt (fst (respond pausePrompt w)))]
             (Returned tt) (snd (respond pausePrompt w)).
Proof.
  unfold waitForContinue. cbn. fold pausePrompt.
  destruct (respond pausePrompt w) as [[e | x] w']; reflexivity.
Qed.

(** The pause after a handler that returned is rejected: the catch block
    reports the rejection and pauses again. *)
Lemma rejected_pause_is_repeated {W : Type} (respond : Collaborator W)
      (w w1 w2 w4 : W) (b : Branch.t) (a : string) (e : Err) :
  a <> ACTIONS.EXIT ->
  respond GitBranch w = (inr b, w1) ->
  respond mainMenu w1 = (inr (a, tt), w2) ->
  outcome (run respond (executeAction trim a) w2) = Returned tt ->
  respond pausePrompt (world (run respond (executeAction trim a) w2)) = (inl e, w4) ->
  isTtyError e = false ->
  trace (run respond (iteration trim) w)
  = (menu_head b
     ++ Called mainMenu (RAnswers [AStr a])
     :: trace (run respond (executeAction trim a) w2)
     ++ Called pausePrompt (Failed e)
     :: report e "执行操作"
     ++ [Called pausePrompt (reify pausePrompt (fst (respond pausePrompt w4)))])%list
  /\ outcome (run respond (iteration trim) w) = Returned tt.
Proof.
  intros Ha H1 H2 Hh H4 Ht.
  unfold iteration. rewrite run_try_catch.
  unfold attempt. rewrite run_bind.
  rewrite (run_showMainMenu respond w w1 w2 b a H1 H2). cbn [outcome trace world].
  rewrite run_bind. rewrite Hh.
  apply String.eqb_neq in Ha. rewrite Ha. cbn [negb].
  rewrite run_bind. rewrite (run_rejected_pause respond _ _ _ H4).
  cbn [outcome trace world after].
  unfold recover. rewrite Ht. rewrite run_bind, run_handleError. cbn [outcome trace world].
  rewrite run_guarded_pause. cbn [outcome trace world after].
  split; [| reflexivity]. rewrite <- !app_assoc. reflexivity.
Qed.

(** C7 (amended). In a pass of the loop in which the menu is answered:
    if exit is chosen the pause prompt is never shown; if another action is
    chosen and the pass goes on to the next menu, the pause prompt is shown
    exactly once provided no pause prompt fails, and once or twice in
    general.  When the handler returned and the pause prompt after it is
    rejected with an error without isTtyError, the catch block reports that
    error under "执行操作" and shows the pause prompt a second time: the
    pass is the menu, the handler's run, the rejected pause, the report and
    the second pause. *)
Theorem pause_once_per_action :
  forall (W : Type) (respond : Collaborator W) (w : W) (a : string),
    let r := run respond (iteration trim) w in
    selected (trace r) = Some a ->
    (a = ACTIONS.EXIT -> count is_pause (trace r) = 0)
    /\ (a <> ACTIONS.EXIT ->
        outcome r = Returned tt ->
        (existsb pause_failed (trace r) = false -> count is_pause (trace r) = 1)
        /\ (count is_pause (trace r) = 1 \/ count is_pause (trace r) = 2))
    /\ (a <> ACTIONS.EXIT ->
        forall (b : Branch.t) (w1 w2 w4 : W) (e : Err),
          respond GitBranch w = (inr b, w1) ->
          respond mainMenu w1 = (inr (a, tt), w2) ->
          let h := run respond (executeAction trim a) w2 in
          outcome h = Returned tt ->
          respond pausePrompt (world h) = (inl e, w4) ->
          isTtyError e = false ->
          trace r
          = (menu_head b
             ++ Called mainMenu (RAnswers [AStr a])
             :: trace h
             ++ Called pausePrompt (Failed e)
             :: report e "执行操作"
             ++ [Called pausePrompt (reify pausePrompt (fst (respond pausePrompt w4)))])%list
          /\ outcome r = Returned tt
          /\ count is_pause (trace r) = 2).
Proof.
  intros W respond w a. cbv zeta. intros Hsel.
  destruct (pause_count_of_pass W respond w a Hsel) as [H0 H1].
  split; [exact H0 |]. split; [exact H1 |].
  intros Ha b w1 w2 w4 e Hb Hm Hh Hp Ht.
  destruct (rejected_pause_is_repeated respond w w1 w2 w4 b a e Ha Hb Hm Hh Hp Ht)
    as [Htr Hout].
  split; [exact Htr |]. split; [exact Hout |].
  rewrite Htr, count_pause_menu, count_app.
  assert (Hin : forallb inner (trace (run respond (executeAction trim a) w2)) = true).
  { exact (proj1 (sat_run _ _ (executeAction_dispatched trim a) W respond w2)). }
  rewrite (inner_no_pause _ Hin).
  change (count is_pause
            (Called pausePrompt (Failed e)
             :: report e "执行操作"
             ++ [Called pausePrompt (reify pausePrompt (fst (respond pausePrompt w4)))]))
    with (S (count is_pause
               (report e "执行操作"
                ++ [Called pausePrompt
                      (reify pausePrompt (fst (respond pausePrompt w4)))]))).
  rewrite count_app, count_report. reflexivity.
Qed.

Lemma inner_plain (h : list Entry) :
  forallb inner h = true -> forallb plain h = true.
Proof.
  intros H. apply forallb_forall. intros x Hx.
  apply (inner_In _ _ H) in Hx.
  destruct x as [c r | o]; [| reflexivity].
  destruct c; cbn in *; try reflexivity; try discriminate.
  apply negb_true_iff, orb_false_iff in Hx. destruct Hx as [-> _]. reflexivity.
Qed.

Lemma report_plain (e : Err) (op : string) : forallb plain (report e op) = true.
Proof. unfold report. destruct (truthy (stderr e)); reflexivity. Qed.

Lemma recovered_plain (e : Err) (rest : list Entry) (out : Outcome unit) :
  Recovered e rest out -> forallb plain rest = true.
Proof.
  intros [Ht | answer Ht]; [reflexivity |].
  rewrite forallb_app, report_plain. reflexivity.
Qed.

Lemma plain_not_menu (l : list Entry) (answer : Reply) :
  forallb plain l = true -> ~ In (Called mainMenu answer) l.
Proof.
  intros H Hin. apply (proj1 (forallb_forall plain l) H) in Hin. discriminate Hin.
Qed.

Lemma plain_not_check (l : list Entry) (answer : Reply) :
  forallb plain l = true -> ~ In (Called GitCheckIsRepo answer) l.
Proof.
  intros H Hin. apply (proj1 (forallb_forall plain l) H) in Hin. discriminate Hin.
Qed.

(** The only answer to the main menu in a pass. *)
Lemma in_pass (b : Branch.t) (given answer : Reply) (back : list Entry) :
  forallb plain back = true ->
  In (Called mainMenu answer) (menu_head b ++ Called mainMenu given :: back) ->
  answer = given.
Proof.
  intros Hb Hin. apply in_app_or in Hin. destruct Hin as [Hin | [Hin | Hin]].
  - cbn in Hin. destruct Hin as [Hin | [Hin | []]]; discriminate Hin.
  - injection Hin as ->. reflexivity.
  - elim (plain_not_menu _ _ Hb Hin).
Qed.

Lemma recovered_fatal (e : Err) (rest : list Entry) (out : Outcome unit) :
  Recovered e rest out ->
  (isTtyError e = true /\ rest = [fatal_line] /\ out = Exited 1)
  \/ (isTtyError e = false /\ out = Returned tt).
Proof. intros [Ht | answer Ht]; auto. Qed.

Lemma pass_looping (tr : list Entry) (out : Outcome unit) :
  Pass tr out -> looping tr out.
Proof.
  intros HP. unfold looping. split; [| split; [| split; [| split]]].
  - (* never thrown *)
    intros e0.
    destruct HP as [e rest out HR | b e rest out HR | b | b a h e rest out Ha Hin Hl HR
                   | b a h s Ha Hin | b a h e rest out Ha Hin HR];
      try (destruct HR); discriminate.
  - (* the cause of an exit *)
    intros code Hcode.
    destruct HP as [e rest out HR | b e rest out HR | b | b a h e rest out Ha Hin Hl HR
                   | b a h s Ha Hin | b a h e rest out Ha Hin HR].
    + destruct HR as [Ht | answer Ht]; [| discriminate]. injection Hcode as <-.
      right. split; [reflexivity |]. exists GitBranch, e. split; [exact Ht |].
      exists []. reflexivity.
    + destruct HR as [Ht | answer Ht]; [| discriminate]. injection Hcode as <-.
      right. split; [reflexivity |]. exists mainMenu, e. split; [exact Ht |].
      exists (menu_head b). reflexivity.
    + injection Hcode as <-. left. split; [reflexivity |].
      exists (menu_head b). reflexivity.
    + destruct HR as [Ht | answer Ht]; [| discriminate]. injection Hcode as <-.
      right. split; [reflexivity |].
      destruct (last_error_ends _ _ Hl) as [c [front ->]].
      exists c, e. split; [exact Ht |].
      exists (menu_head b ++ Called mainMenu (RAnswers [AStr a]) :: front)%list.
      rewrite <- !app_assoc. reflexivity.
    + discriminate.
    + destruct HR as [Ht | answer Ht]; [| discriminate]. injection Hcode as <-.
      right. split; [reflexivity |]. exists pausePrompt, e. split; [exact Ht |].
      exists (menu_head b ++ Called mainMenu (RAnswers [AStr a]) :: h)%list.
      rewrite <- !app_assoc. reflexivity.
  - (* exit chosen *)
    intros Hin.
    destruct HP as [e rest out HR | b e rest out HR | b | b a h e rest out Ha Hin' Hl HR
                   | b a h s Ha Hin' | b a h e rest out Ha Hin' HR].
    + destruct Hin as [Hin | Hin]; [discriminate |].
      elim (plain_not_menu _ _ (recovered_plain _ _ _ HR) Hin).
    + apply in_pass in Hin; [discriminate | exact (recovered_plain _ _ _ HR)].
    + reflexivity.
    + apply in_pass in Hin; [congruence |].
      rewrite forallb_app, (inner_plain _ Hin'), (recovered_plain _ _ _ HR). reflexivity.
    + apply in_pass in Hin; [congruence |].
      rewrite forallb_app, (inner_plain _ Hin'). reflexivity.
    + apply in_pass in Hin; [congruence |].
      rewrite forallb_app, (inner_plain _ Hin'). cbn.
      rewrite (recovered_plain _ _ _ HR). reflexivity.
  - (* the menu itself fails with a TTY error *)
    intros e H Ht.
    destruct HP as [e0 rest out HR | b e0 rest out HR | b | b a h e0 rest out Ha Hin' Hl HR
                   | b a h s Ha Hin' | b a h e0 rest out Ha Hin' HR].
    + destruct H as [Hin | Hin]; [discriminate |].
      elim (plain_not_menu _ _ (recovered_plain _ _ _ HR) Hin).
    + apply in_pass in H; [| exact (recovered_plain _ _ _ HR)].
      injection H as ->.
      destruct (recovered_fatal _ _ _ HR) as [(_ & -> & ->) | [Hf _]]; [| congruence].
      split; [reflexivity |]. exists (menu_head b). reflexivity.
    + apply in_pass in H; [discriminate | reflexivity].
    + apply in_pass in H; [discriminate |].
      rewrite forallb_app, (inner_plain _ Hin'), (recovered_plain _ _ _ HR). reflexivity.
    + apply in_pass in H; [discriminate |].
      rewrite forallb_app, (inner_plain _ Hin'). reflexivity.
    + apply in_pass in H; [discriminate |].
      rewrite forallb_app, (inner_plain _ Hin'). cbn.
      rewrite (recovered_plain _ _ _ HR). reflexivity.
  - (* no repository check *)
    intros r Hin.
    destruct HP as [e0 rest out HR | b e0 rest out HR | b | b a h e0 rest out Ha Hin' Hl HR
                   | b a h s Ha Hin' | b a h e0 rest out Ha Hin' HR].
    + destruct Hin as [Hin | Hin]; [discriminate |].
      elim (plain_not_check _ _ (recovered_plain _ _ _ HR) Hin).
    + apply in_app_or in Hin. destruct Hin as [Hin | [Hin | Hin]].
      * cbn in Hin. destruct Hin as [Hin | [Hin | []]]; discriminate Hin.
      * discriminate Hin.
      * elim (plain_not_check _ _ (recovered_plain _ _ _ HR) Hin).
    + cbn in Hin. repeat (destruct Hin as [Hin | Hin]; try discriminate Hin; try contradiction Hin).
    + apply in_app_or in Hin. destruct Hin as [Hin | [Hin | Hin]].
      * cbn in Hin. destruct Hin as [Hin | [Hin | []]]; discriminate Hin.
      * discriminate Hin.
      * apply in_app_or in Hin. destruct Hin as [Hin | Hin].
        -- elim (plain_not_check _ _ (inner_plain _ Hin') Hin).
        -- elim (plain_not_check _ _ (recovered_plain _ _ _ HR) Hin).
    + apply in_app_or in Hin. destruct Hin as [Hin | [Hin | Hin]].
      * cbn in Hin. destruct Hin as [Hin | [Hin | []]]; discriminate Hin.
      * discriminate Hin.
      * apply in_app_or in Hin. destruct Hin as [Hin | Hin].
        -- elim (plain_not_check _ _ (inner_plain _ Hin') Hin).
        -- cbn in Hin. repeat (destruct Hin as [Hin | Hin]; try discriminate Hin; try contradiction Hin).
    + apply in_app_or in Hin. destruct Hin as [Hin | [Hin | Hin]].
      * cbn in Hin. destruct Hin as [Hin | [Hin | []]]; discriminate Hin.
      * discriminate Hin.
      * apply in_app_or in Hin. destruct Hin as [Hin | [Hin | Hin]].
        -- elim (plain_not_check _ _ (inner_plain _ Hin') Hin).
        -- discriminate Hin.
        -- elim (plain_not_check _ _ (recovered_plain _ _ _ HR) Hin).
Qed.

Lemma looping_exited {A B : Type} (tr : list Entry) (code : Z) :
  looping tr (Exited code : Outcome A) -> looping tr (Exited code : Outcome B).
Proof.
  intros (_ & H2 & H3 & H4 & H5). unfold looping.
  split; [discriminate |]. split; [| split; [| split]].
  - intros c [= <-]. apply H2. reflexivity.
  - intros Hin. injection (H3 Hin) as ->. reflexivity.
  - intros e Hin Ht. destruct (H4 e Hin Ht) as [[= ->] Hends]. auto.
  - exact H5.
Qed.

Lemma looping_app {A B : Type} (tr1 tr2 : list Entry) (a : A) (out : Outcome B) :
  looping tr1 (Returned a) -> looping tr2 out -> looping (tr1 ++ tr2) out.
Proof.
  intros (_ & _ & F3 & F4 & F5) (S1 & S2 & S3 & S4 & S5). unfold looping.
  split; [exact S1 |]. split; [| split; [| split]].
  - intros code Hc. destruct (S2 code Hc) as [[-> He] | [-> (c & e & Ht & He)]].
    + left. split; [reflexivity |]. apply ends_with_app. exact He.
    + right. split; [reflexivity |]. exists c, e. split; [exact Ht |].
      apply ends_with_app. exact He.
  - intros Hin. apply in_app_or in Hin. destruct Hin as [Hin | Hin]; auto.
    discriminate (F3 Hin).
  - intros e Hin Ht. apply in_app_or in Hin. destruct Hin as [Hin | Hin].
    + destruct (F4 e Hin Ht) as [Hx _]. discriminate Hx.
    + destruct (S4 e Hin Ht) as [Hx He]. split; [exact Hx |].
      apply ends_with_app. exact He.
  - intros r Hin. apply in_app_or in Hin. destruct Hin as [Hin | Hin].
    + exact (F5 r Hin).
    + exact (S5 r Hin).
Qed.

Lemma loop_looping (fuel : nat) : sat (loop trim fuel) looping.
Proof.
  induction fuel as [| n IH].
  - cbn. unfold looping. split; [discriminate |]. split; [discriminate |].
    split; [intros [] |]. split; [intros e [] | intros r []].
  - cbn [loop]. apply sat_bind.
    eapply sat_conseq; [apply (iteration_pass trim) |].
    intros tr out HP. apply pass_looping in HP.
    destruct out as [[] | e | code].
    + eapply sat_conseq; [exact IH |].
      intros tr' out' HL. exact (looping_app _ _ _ _ HP HL).
    + destruct HP as [HP _]. elim (HP e). reflexivity.
    + exact (looping_exited _ _ HP).
Qed.

(** C9 (amended). The process never ends by an uncaught error.  It exits
    with code 0 exactly when exit is chosen at the menu; it exits with code
    1 when the repository check answers false, when the repository check
    itself is rejected (reported as an unexpected error), and when an error
    flagged isTtyError reaches the catch block of the loop; nothing else
    ends the process and no other code is produced. *)
Theorem exit_codes :
  forall (W : Type) (respond : Collaborator W) (w : W) (fuel : nat),
    let r := run respond (program trim fuel) w in
    (forall e, outcome r <> Thrown e)
    /\ (forall code,
           outcome r = Exited code ->
           (code = 0%Z
            /\ ends_with [Called mainMenu (RAnswers [AStr ACTIONS.EXIT]);
                          farewell_line] (trace r))
           \/ (code = 1%Z
               /\ trace r = [Called GitCheckIsRepo (RBool false); not_repo_line])
           \/ (code = 1%Z
               /\ exists c e, isTtyError e = true
                              /\ ends_with [Called c (Failed e); fatal_line] (trace r))
           \/ (code = 1%Z
               /\ exists e, trace r = [Called GitCheckIsRepo (Failed e);
                                       unexpected_line e]))
    /\ (In (Called mainMenu (RAnswers [AStr ACTIONS.EXIT])) (trace r) ->
        outcome r = Exited 0)
    /\ (In (Called GitCheckIsRepo (RBool false)) (trace r) -> outcome r = Exited 1)
    /\ (forall e, In (Called mainMenu (Failed e)) (trace r) ->
                  isTtyError e = true -> outcome r = Exited 1)
    /\ (forall e, In (Called GitCheckIsRepo (Failed e)) (trace r) ->
                  outcome r = Exited 1).
Proof.
  intros W respond w fuel. by_sat respond w.
  unfold program, main, checkIsRepo. exec.
  - (* the repository check is rejected *)
    split; [discriminate |]. split; [| split; [| split; [| split]]].
    + intros code [= <-]. right. right. right. split; [reflexivity |].
      exists err. reflexivity.
    + intros H. failed_call H.
    + intros H. failed_call H.
    + intros e H. failed_call H.
    + reflexivity.
  - (* not a repository *)
    destruct x; [discriminate |].
    split; [discriminate |]. split; [| split; [| split; [| split]]].
    + intros code [= <-]. right. left. split; reflexivity.
    + intros H. failed_call H.
    + reflexivity.
    + intros e H. failed_call H.
    + intros e H. failed_call H.
  - (* the loop *)
    destruct x; [| discriminate].
    apply sat_try. eapply sat_conseq; [apply loop_looping |].
    intros tr out (L1 & L2 & L3 & L4 & L5).
    destruct out as [u | e | code]; [| elim (L1 e); reflexivity |].
    + split; [discriminate |]. split; [discriminate |].
      split; [| split; [| split]].
      * intros [H | H]; [discriminate H |]. discriminate (L3 H).
      * intros [H | H]; [discriminate H |]. elim (L5 _ H).
      * intros e [H | H] Ht; [discriminate H |].
        destruct (L4 e H Ht) as [Hx _]. discriminate Hx.
      * intros e [H | H]; [discriminate H |]. elim (L5 _ H).
    + split; [discriminate |]. split; [| split; [| split; [| split]]].
      * intros c [= <-].
        destruct (L2 code eq_refl) as [[-> He] | [-> (c & e & Ht & He)]].
        -- left. split; [reflexivity |].
           apply (ends_with_app _ [Called GitCheckIsRepo (RBool true)]). exact He.
        -- right. right. left. split; [reflexivity |]. exists c, e.
           split; [exact Ht |].
           apply (ends_with_app _ [Called GitCheckIsRepo (RBool true)]). exact He.
      * intros [H | H]; [discriminate H |]. injection (L3 H) as ->. reflexivity.
      * intros [H | H]; [discriminate H |]. elim (L5 _ H).
      * intros e [H | H] Ht; [discriminate H |].
        destruct (L4 e H Ht) as [[= ->] _]. reflexivity.
      * intros e [H | H]; [discriminate H |]. elim (L5 _ H).
Qed.

Lemma report_no_menu (e : Err) (op : string) (rest : list Entry) :
  existsb is_menu (report e op ++ rest) = existsb is_menu rest.
Proof. unfold report. destruct (truthy (stderr e)); reflexivity. Qed.

(** C4 (amended). When the branch query at the start of a pass fails, the
    menu is not presented in that pass.  For an error without isTtyError
    the catch block of the loop reports it under the operation
    "执行操作", shows the pause prompt, and the pass ends normally, so the
    loop goes on; for an error flagged isTtyError the process exits with
    code 1. *)
Theorem branch_failure_skips_menu :
  forall (W : Type) (respond : Collaborator W) (w : W) (e : Err),
    let r := run respond (iteration trim) w in
    hd_error (trace r) = Some (Called GitBranch (Failed e)) ->
    existsb is_menu (trace r) = false
    /\ (isTtyError e = false ->
        outcome r = Returned tt
        /\ exists answer,
             trace r = (Called GitBranch (Failed e)
                        :: report e "执行操作" ++ [Called pausePrompt answer])%list)
    /\ (isTtyError e = true ->
        outcome r = Exited 1
        /\ trace r = [Called GitBranch (Failed e); fatal_line]).
Proof.
  intros W respond w e. by_sat respond w.
  eapply sat_conseq; [apply (iteration_pass trim) |].
  intros tr out HP.
  destruct HP as [e0 rest out HR | b e0 rest out HR | b | b a h e0 rest out Ha Hin Hl HR
                 | b a h s Ha Hin | b a h e0 rest out Ha Hin HR];
    try (intros H; discriminate H).
  intros [= ->]. destruct HR as [Ht | answer Ht].
  - split; [reflexivity |]. split; [congruence |]. intros _. split; reflexivity.
  - split; [| split; [| congruence]].
    + change (existsb is_menu (report e "执行操作" ++ [Called pausePrompt answer]) = false).
      rewrite report_no_menu. reflexivity.
    + intros _. split; [reflexivity |]. exists answer. reflexivity.
Qed.



End LoopProperties.

(** ** The properties at concrete inputs *)

Ltac evaluated := vm_compute; repeat split; try reflexivity; try discriminate.

Ltac absent :=
  let H := fresh "H" in
  vm_compute; intros H;
  repeat (destruct H as [H | H]; try discriminate H); exact H.

(** C1 at [pull_rejected]: the pull fails, nothing is pushed, the handler
    returns. *)
Lemma failed_pull_suppresses_push_witness :
  let r := run scripted (commitAndPush ascii_trim) pull_rejected in
  existsb pull_failed (trace r) = true
  /\ existsb is_push (trace r) = false
  /\ outcome r = Returned tt.
Proof.
  assert (H : existsb pull_failed
                (trace (run scripted (commitAndPush ascii_trim) pull_rejected)) = true)
    by (vm_compute; reflexivity).
  destruct (failed_pull_suppresses_push ascii_trim _ scripted pull_rejected H)
    as (H1 & H2 & _).
  cbv zeta. split; [exact H |]. split; [exact H1 | exact H2].
Defined.

(** C2 at the two lists of the specification. *)
Lemma default_remote_prefers_origin_witness :
  outcome (run scripted getDefaultRemote [RRemotes [upstream; origin]])
  = Returned (Some "origin")
  /\ outcome (run scripted getDefaultRemote [RRemotes [upstream]])
     = Returned (Some "upstream").
Proof.
  split.
  - refine (proj1 (default_remote_prefers_origin
                     _ scripted [RRemotes [upstream; origin]] [upstream; origin] _ _) _).
    + vm_compute. left. reflexivity.
    + discriminate.
    + exists origin. split; [right; left; reflexivity | reflexivity].
  - refine (proj1 (proj2 (default_remote_prefers_origin
                            _ scripted [RRemotes [upstream]] [upstream] _ _)) _).
    + vm_compute. left. reflexivity.
    + discriminate.
    + intros x [<- | []]. discriminate.
Defined.

(** C3 at [nothing_changed]: a staged file, nothing modified or untracked. *)
Lemma nothing_to_commit_is_noop_witness :
  let r := run scripted (commitAndPush ascii_trim) nothing_changed in
  existsb is_sync_call (trace r) = false /\ outcome r = Returned tt.
Proof.
  cbv zeta.
  destruct (nothing_to_commit_is_noop ascii_trim _ scripted nothing_changed clean)
    as (H1 & H2 & _).
  - vm_compute. right. left. reflexivity.
  - reflexivity.
  - reflexivity.
  - split; [exact H1 | exact H2].
Defined.

(** C8 at [merge_declined] and [only_main]: on main with branches main and
    dev the list offered is dev alone, declining makes no merge call, and
    with main alone the handler only prints the notice. *)
Lemma merge_offers_other_branches_witness :
  let r := run scripted mergeBranch merge_declined in
  (~ In "main" ["dev"]
   /\ existsb is_merge (trace r) = false
   /\ outcome r = Returned tt)
  /\ outcome (run scripted mergeBranch only_main) = Returned tt.
Proof.
  cbv zeta. split.
  - destruct (merge_offers_other_branches _ scripted merge_declined) as (Hc & _ & H).
    destruct (H "confirm" "确定要将 dev 合并到 main 吗?" false) as (H1 & H2 & _).
    + vm_compute. do 3 right. left. reflexivity.
    + split; [| split; [exact H1 | exact H2]].
      refine (proj2 (Hc on_main on_main "branch" "选择要合并到 main 的分支:" ["dev"] None
                        (RAnswers [AStr "dev"]) _ _ _)).
      * vm_compute. left. reflexivity.
      * vm_compute. right. left. reflexivity.
      * vm_compute. do 2 right. left. reflexivity.
  - destruct (merge_offers_other_branches _ scripted only_main) as (_ & H & _).
    refine (proj2 (H on_main (Branch.mk "main" ["main"]) _ _ _)).
    + vm_compute. left. reflexivity.
    + vm_compute. right. left. reflexivity.
    + intros b [<- | []]. reflexivity.
Defined.

(** C10 at [no_remote]: a change to commit, no call fails, no remote: stage,
    commit and pull are made, then the push step reports the failure. *)
Lemma no_remote_fails_at_push_witness :
  let r := run scripted (commitAndPush ascii_trim) no_remote in
  (exists e, outcome (run scripted getDefaultRemote [RRemotes []]) = Thrown e)
  /\ In (Called (GitAdd ".") RDone) (trace r)
  /\ In (Called (GitCommit "fix typo") RDone) (trace r)
  /\ In (Called GitPull (RPull up_to_date)) (trace r)
  /\ existsb is_push (trace r) = false
  /\ outcome r = Returned tt.
Proof.
  cbv zeta. split.
  - destruct (no_remote_fails_at_push ascii_trim _ scripted [RRemotes []]) as (_ & H & _).
    apply (H []); [vm_compute; left |]; reflexivity.
  - destruct (no_remote_fails_at_push ascii_trim _ scripted no_remote) as (_ & _ & H & _).
    destruct H as (_ & H1 & _ & H2).
    + vm_compute. reflexivity.
    + intros st Hin. vm_compute in Hin.
      repeat (destruct Hin as [Hin | Hin]; try discriminate Hin); [| contradiction].
      injection Hin as <-. left. discriminate.
    + intros remotes Hin. vm_compute in Hin.
      repeat (destruct Hin as [Hin | Hin]; try discriminate Hin); [| contradiction].
      injection Hin as <-. reflexivity.
    + split; [vm_compute; do 4 right; left; reflexivity |].
      split; [vm_compute; do 6 right; left; reflexivity |].
      split; [vm_compute; do 9 right; left; reflexivity |].
      split; [exact H1 | exact H2].
Defined.

(** C4 as amended, at [branch_query_rejected]. *)
Lemma branch_failure_skips_menu_witness :
  let r := run scripted (iteration ascii_trim) branch_query_rejected in
  existsb is_menu (trace r) = false /\ outcome r = Returned tt.
Proof.
  cbv zeta.
  destruct (branch_failure_skips_menu ascii_trim _ scripted branch_query_rejected git_error)
    as (H1 & H2 & _).
  - reflexivity.
  - split; [exact H1 |]. exact (proj1 (H2 eq_refl)).
Defined.


(** C7 as amended, at [status_then_pause], [exit_chosen] and
    [pause_closed_once]. *)
Lemma pause_once_per_action_witness :
  count is_pause (trace (run scripted (iteration ascii_trim) status_then_pause)) = 1
  /\ count is_pause (trace (run scripted (iteration ascii_trim) exit_chosen)) = 0
  /\ count is_pause (trace (run scripted (iteration ascii_trim) pause_closed_once)) = 2.
Proof.
  split; [| split].
  - destruct (pause_once_per_action ascii_trim _ scripted status_then_pause ACTIONS.STATUS)
      as (_ & H & _).
    + vm_compute. reflexivity.
    + destruct H as (H & _).
      * discriminate.
      * vm_compute. reflexivity.
      * apply H. vm_compute. reflexivity.
  - destruct (pause_once_per_action ascii_trim _ scripted exit_chosen ACTIONS.EXIT)
      as (H & _).
    + vm_compute. reflexivity.
    + apply H. reflexivity.
  - destruct (pause_once_per_action ascii_trim _ scripted pause_closed_once ACTIONS.STATUS)
      as (_ & _ & H).
    + vm_compute. reflexivity.
    + refine (proj2 (proj2 (H _ on_main
                              [RAnswers [AStr ACTIONS.STATUS]; RStatus clean;
                               Failed closed_error; RAnswers [AStr ""]]
                              [RStatus clean; Failed closed_error; RAnswers [AStr ""]]
                              [RAnswers [AStr ""]] closed_error _ _ _ _ _))).
      * discriminate.
      * reflexivity.
      * reflexivity.
      * vm_compute. reflexivity.
      * vm_compute. reflexivity.
      * reflexivity.
Defined.

(** C9 as amended, at [session_exit]. *)
Lemma exit_codes_witness :
  outcome (run scripted (program ascii_trim 1) session_exit) = Exited 0.
Proof.
  destruct (exit_codes ascii_trim _ scripted session_exit 1) as (_ & _ & H & _).
  apply H. vm_compute. do 3 right. left. reflexivity.
Defined.

(** C4 as stated fails at [branch_query_rejected]: the branch query is
    rejected and the pass reports the error and pauses without presenting
    the menu. *)
Lemma branch_failure_hides_menu :
  let r := run scripted (iteration ascii_trim) branch_query_rejected in
  trace r = [Called GitBranch (Failed git_error);
             Logged (Line Red "❌ 执行操作失败: fatal: unable to access remote");
             Logged (Line Gray "详细信息: exit code 128");
             Called pausePrompt (RAnswers [AStr ""])]
  /\ existsb is_menu (trace r) = false
  /\ outcome r = Returned tt.
Proof. evaluated. Qed.


(** C7 as stated fails at [pause_closed_once]: the status handler returns,
    the pause prompt is rejected, and the catch block shows it again. *)
Lemma pause_shown_twice :
  let r := run scripted (iteration ascii_trim) pause_closed_once in
  selected (trace r) = Some ACTIONS.STATUS
  /\ ACTIONS.STATUS <> ACTIONS.EXIT
  /\ outcome (run scripted showStatus [RStatus clean]) = Returned tt
  /\ outcome r = Returned tt
  /\ count is_pause (trace r) = 2.
Proof. evaluated. Qed.

(** C9 as stated fails at [check_rejected]: the repository check is rejected,
    so there is neither the answer "not a repository" nor a TTY error, and
    the process exits with code 1. *)
Lemma rejected_check_exits_one :
  let r := run scripted (program ascii_trim 1) check_rejected in
  outcome r = Exited 1
  /\ trace r = [Called GitCheckIsRepo (Failed git_error); unexpected_line git_error]
  /\ ~ In (Called GitCheckIsRepo (RBool false)) (trace r)
  /\ ~ In not_repo_line (trace r)
  /\ ~ In fatal_line (trace r)
  /\ existsb tty_failure (trace r) = false.
Proof.
  cbv zeta. repeat split; try (vm_compute; reflexivity); absent.
Qed.

(** C5 at [listing_rejected]: the remote listing of the remote-management
    handler is rejected; the handler prints nothing and the error leaves it,
    to be reported by the catch block of the loop under "执行操作".  Its
    sibling deleteRemote reports the same rejection itself and returns. *)
Theorem remote_listing_failure_escapes :
  let r := run scripted (manageRemotes ascii_trim) listing_rejected in
  let p := run scripted (iteration ascii_trim) remote_menu_listing_rejected in
  let d := run scripted deleteRemote listing_rejected in
  (trace r = [Called (GitGetRemotes true) (Failed git_error)]
   /\ outcome r = Thrown git_error)
  /\ (In (Logged (Line Red ("❌ 执行操作失败: " ++ message git_error))) (trace p)
      /\ outcome p = Returned tt)
  /\ (trace d = [Called (GitGetRemotes true) (Failed git_error);
                 Logged (Line Red ("❌ 删除远程仓库失败: " ++ message git_error));
                 Logged (Line Gray "详细信息: exit code 128")]
      /\ outcome d = Returned tt).
Proof.
  cbv zeta. split; [evaluated |]. split; [| evaluated].
  split; [vm_compute; do 4 right; left; reflexivity | evaluated].
Qed.

(** ** More properties of the handlers *)

(** A line is printed exactly under its condition. *)
Ltac line_iff :=
  let H := fresh "H" in
  split;
  [ intros H; failed_call H;
    first [ discriminate
          | solve [repeat split; reflexivity]
          | intros (? & ? & ?); discriminate ]
  | intros H;
    first [ solve [in_trace]
          | exfalso;
            first [ solve [apply H; repeat split; reflexivity]
                  | destruct H as (? & ? & ?); discriminate ] ] ].

Section More.
Variable trim : string -> string.

(** X1. Push with no remote configured: the handler prints the notice and
    returns; it shows no prompt and makes no push call. *)
Theorem push_without_remotes :
  forall (W : Type) (respond : Collaborator W) (w : W),
    let r := run respond pushCode w in
    In (Called (GitGetRemotes true) (RRemotes [])) (trace r) ->
    trace r = [Called (GitGetRemotes true) (RRemotes []);
               Logged (Line Red "⚠️ 当前没有配置远程仓库")]
    /\ outcome r = Returned tt.
Proof.
  intros W respond w. by_sat respond w. unfold pushCode. exec.
  all: intros H; failed_call H.
  all: injection H as H; subst; try discriminate.
  split; reflexivity.
Qed.

(** X2. Push: the one push call goes to the remote and branch answered at
    the prompt, which offers the names of the configured remotes and the
    current branch as the default branch. *)
Theorem push_goes_where_answered :
  forall (W : Type) (respond : Collaborator W) (w : W)
         (remote : option string) (branch : string) (res : Reply),
    let r := run respond pushCode w in
    In (Called (GitPush remote branch) res) (trace r) ->
    count is_push (trace r) = 1
    /\ exists remotes cur chosen,
        remotes <> []
        /\ remote = Some chosen
        /\ In (Called (GitGetRemotes true) (RRemotes remotes)) (trace r)
        /\ In (Called GitBranch (RBranch cur)) (trace r)
        /\ In (Called (Prompt [QList "remote" "选择远程仓库:" (map name remotes) None;
                               QInput "branch" "输入要推送的分支:"
                                      (Some (Branch.current cur)) None])
                      (RAnswers [AStr chosen; AStr branch])) (trace r).
Proof.
  intros W respond w remote branch res. revert remote branch res.
  by_sat respond w. unfold pushCode. exec.
  all: intros remote branch res H; failed_call H.
  all: injection H as <- <- _.
  all: split; [reflexivity |].
  all: exists x, x0, (fst x1).
  all: split; [intros ->; discriminate |].
  all: split; [reflexivity |].
  all: repeat split; in_trace.
Qed.

(** X3. Remote update and remote deletion with no remote configured: each
    prints its notice and returns before any prompt. *)
Theorem remote_edit_needs_a_remote :
  forall (W : Type) (respond : Collaborator W) (w : W),
    let u := run respond (updateRemote trim) w in
    let d := run respond deleteRemote w in
    (In (Called (GitGetRemotes true) (RRemotes [])) (trace u) ->
     trace u = [Called (GitGetRemotes true) (RRemotes []);
                Logged (Line Red "⚠️ 当前没有可修改的远程仓库")]
     /\ outcome u = Returned tt)
    /\ (In (Called (GitGetRemotes true) (RRemotes [])) (trace d) ->
        trace d = [Called (GitGetRemotes true) (RRemotes []);
                   Logged (Line Red "⚠️ 当前没有可删除的远程仓库")]
        /\ outcome d = Returned tt).
Proof.
  intros W respond w. cbv zeta. split.
  - by_sat respond w. unfold updateRemote. exec.
    all: intros H; failed_call H.
    all: injection H as H; subst; try discriminate.
    split; reflexivity.
  - by_sat respond w. unfold deleteRemote. exec.
    all: intros H; failed_call H.
    all: injection H as H; subst; try discriminate.
    split; reflexivity.
Qed.

(** X4. Branch management: the prompt offers all local branches with the
    current one as default; choosing the current branch makes no checkout
    call and prints the notice; choosing another makes exactly one checkout
    call, of that branch. *)
Theorem switch_only_to_another_branch :
  forall (W : Type) (respond : Collaborator W) (w : W)
         (loc : Branch.t) (qn qm : string) (choices : list string)
         (d : option string) (chosen : string),
    let r := run respond manageBranches w in
    In (Called GitBranchLocal (RBranch loc)) (trace r) ->
    In (Called (Prompt [QList qn qm choices d]) (RAnswers [AStr chosen])) (trace r) ->
    choices = Branch.all loc
    /\ d = Some (Branch.current loc)
    /\ outcome r = Returned tt
    /\ (chosen = Branch.current loc ->
        existsb is_checkout (trace r) = false
        /\ In (Logged (Line Yellow "⚠️ 已经是当前分支")) (trace r))
    /\ (chosen <> Branch.current loc ->
        count is_checkout (trace r) = 1
        /\ exists res, In (Called (GitCheckout chosen) res) (trace r)).
Proof.
  intros W respond w loc qn qm choices d chosen.
  revert loc qn qm choices d chosen.
  by_sat respond w. unfold manageBranches. exec.
  all: intros loc qn qm choices d chosen H1 H2; failed_call H1; failed_call H2.
  all: injection H1 as <-; injection H2 as Hq1 Hq2 <- <- <-.
  all: split; [reflexivity |]; split; [reflexivity |]; split; [reflexivity |].
  all: match goal with
       | Hb : (_ =? _) = true |- _ => apply String.eqb_eq in Hb
       | Hb : (_ =? _) = false |- _ => apply String.eqb_neq in Hb
       end.
  all: split; [intros Hc; try contradiction | intros Hc; try contradiction].
  all: first [ solve [split; [reflexivity | in_trace]]
             | split; [reflexivity | eexists; in_trace] ].
Qed.

(** X5. Remote deletion: a remove call is made only for the remote chosen at
    the prompt and only after the confirmation was answered yes; a declined
    confirmation removes nothing. *)
Theorem delete_remote_needs_confirmation :
  forall (W : Type) (respond : Collaborator W) (w : W),
    let r := run respond deleteRemote w in
    (forall n res,
        In (Called (GitRemoveRemote n) res) (trace r) ->
        count is_remove (trace r) = 1
        /\ exists remotes,
            In (Called (GitGetRemotes true) (RRemotes remotes)) (trace r)
            /\ In (Called (Prompt [QList "remoteName" "选择要删除的远程仓库:"
                                         (map name remotes) None])
                          (RAnswers [AStr n])) (trace r)
            /\ In (Called (Prompt [QConfirm "confirm"
                                            ("确定要删除远程仓库 " ++ n ++ " 吗?") false])
                          (RAnswers [ABool true])) (trace r))
    /\ (forall qn qm d,
           In (Called (Prompt [QConfirm qn qm d]) (RAnswers [ABool false])) (trace r) ->
           existsb is_remove (trace r) = false
           /\ In (Logged (Line Yellow "❌ 已取消删除")) (trace r)
           /\ outcome r = Returned tt).
Proof.
  intros W respond w. cbv zeta. split.
  - by_sat respond w. unfold deleteRemote. exec.
    all: intros n res H; failed_call H.
    all: injection H as <- _.
    all: split; [reflexivity |].
    all: exists x.
    all: destruct (fst x1) eqn:Hc; [| discriminate].
    all: repeat split; in_trace.
  - by_sat respond w. unfold deleteRemote. exec.
    all: intros qn qm d H; failed_call H.
    all: injection H as _ _ _ Hc.
    all: try (exfalso;
              match goal with
              | Hn : negb _ = false |- _ => rewrite Hc in Hn; discriminate Hn
              end).
    all: repeat split; in_trace.
Qed.

(** X6. Remote addition: the remote is added under the trimmed name with the
    trimmed address; the success line shows them as typed, and a rejection
    is reported. *)
Theorem add_remote_trims_input :
  forall (W : Type) (respond : Collaborator W) (w : W) (n u : string) (res : Reply),
    let r := run respond (addRemote trim) w in
    In (Called (GitAddRemote n u) res) (trace r) ->
    outcome r = Returned tt
    /\ exists typed_name typed_url,
        n = trim typed_name
        /\ u = trim typed_url
        /\ hd_error (trace r)
           = Some (Called (Prompt [QInput "name" "请输入远程仓库名称:" (Some "origin")
                                          (Some (NonBlank "名称不能为空"));
                                   QInput "url" "请输入远程仓库地址:" None
                                          (Some (NonBlank "地址不能为空"))])
                          (RAnswers [AStr typed_name; AStr typed_url]))
        /\ (res = RDone ->
            In (Logged (Line Green ("✅ 已添加远程仓库 " ++ typed_name ++ ": " ++ typed_url)))
               (trace r))
        /\ (forall e, res = Failed e -> incl (report e "添加远程仓库") (trace r)).
Proof.
  intros W respond w n u res. revert n u res.
  by_sat respond w. unfold addRemote. exec.
  all: intros n u res H; failed_call H.
  all: injection H as <- <- <-.
  all: split; [reflexivity |].
  all: exists (fst x), (fst (snd x)).
  all: split; [reflexivity |]; split; [reflexivity |]; split; [reflexivity |].
  all: split; [intros Hr; try discriminate Hr; in_trace
              | intros e Hr; try discriminate Hr; injection Hr as <-; reported].
Qed.

(** X7. Remote update: the call is set-url with the chosen remote and the
    trimmed address. *)
Theorem update_remote_sets_url :
  forall (W : Type) (respond : Collaborator W) (w : W) (options : list string)
         (res : Reply),
    let r := run respond (updateRemote trim) w in
    In (Called (GitRemote options) res) (trace r) ->
    outcome r = Returned tt
    /\ exists remotes chosen typed_url,
        remotes <> []
        /\ options = ["set-url"; chosen; trim typed_url]
        /\ In (Called (GitGetRemotes true) (RRemotes remotes)) (trace r)
        /\ In (Called (Prompt [QList "remoteName" "选择要修改的远程仓库:"
                                     (map name remotes) None;
                               QInput "newUrl" "请输入新的远程仓库地址:" None
                                      (Some (NonBlank "地址不能为空"))])
                      (RAnswers [AStr chosen; AStr typed_url])) (trace r).
Proof.
  intros W respond w options res. revert options res.
  by_sat respond w. unfold updateRemote. exec.
  all: intros options res H; failed_call H.
  all: injection H as <- _.
  all: split; [reflexivity |].
  all: exists x, (fst x0), (fst (snd x0)).
  all: split; [intros ->; discriminate |].
  all: repeat split; in_trace.
Qed.

(** X8. Status: the handler makes the status call only; each of the three
    list lines is printed exactly when its list is not empty, and the clean
    line exactly when all three are empty. *)
Theorem status_says_clean_when_clean :
  forall (W : Type) (respond : Collaborator W) (w : W) (st : Status.t),
    let r := run respond showStatus w in
    In (Called GitStatus (RStatus st)) (trace r) ->
    count is_call (trace r) = 1
    /\ outcome r = Returned tt
    /\ (In (Logged (Line Green "✅ 工作区干净，没有修改")) (trace r) <->
        Status.modified st = [] /\ Status.not_added st = [] /\ Status.staged st = [])
    /\ (In (Logged (LineWith Red "✏️ 已修改文件:" (VFiles (Status.modified st)))) (trace r) <->
        Status.modified st <> [])
    /\ (In (Logged (LineWith Yellow "📝 未跟踪文件:" (VFiles (Status.not_added st))))
           (trace r) <->
        Status.not_added st <> [])
    /\ (In (Logged (LineWith Blue "✅ 已暂存文件:" (VFiles (Status.staged st)))) (trace r) <->
        Status.staged st <> []).
Proof.
  intros W respond w st. revert st. by_sat respond w. unfold showStatus. exec.
  all: intros st H; failed_call H.
  all: injection H as <-.
  all: destruct x as [cur trk ah bh [| m ms] [| n ns] [| s ss]]; cbn in *; try discriminate.
  all: cbn [Status.modified Status.not_added Status.staged].
  all: split; [reflexivity |]; split; [reflexivity |].
  all: split; [line_iff |]; split; [line_iff |]; split; line_iff.
Qed.

(** X9. Pull: the handler makes the pull call only; it prints the up-to-date
    line exactly when the summary counts are all zero and the summary
    otherwise. *)
Theorem pull_says_up_to_date_when_unchanged :
  forall (W : Type) (respond : Collaborator W) (w : W) (p : PullResult),
    let r := run respond pullCode w in
    In (Called GitPull (RPull p)) (trace r) ->
    count is_call (trace r) = 1
    /\ outcome r = Returned tt
    /\ (In (Logged (Line Green "✅ 已是最新版本")) (trace r) <->
        changes (summary p) = 0 /\ insertions (summary p) = 0
        /\ deletions (summary p) = 0)
    /\ (In (Logged (LineWith Yellow "📌 更新内容:" (VSummary (summary p)))) (trace r) <->
        ~ (changes (summary p) = 0 /\ insertions (summary p) = 0
           /\ deletions (summary p) = 0)).
Proof.
  intros W respond w p. revert p. by_sat respond w. unfold pullCode. exec.
  all: intros p H; failed_call H.
  all: injection H as <-.
  all: destruct x as [[[| c] [| i] [| d]]]; cbn in *; try discriminate.
  all: cbn [summary changes insertions deletions].
  all: split; [reflexivity |]; split; [reflexivity |].
  all: split; line_iff.
Qed.

(** X10. Commit-and-sync: a rejected add stops the sequence before commit,
    pull and push, a rejected commit before pull and push; either is
    reported under the commit operation. *)
Theorem failed_commit_stops_sync :
  forall (W : Type) (respond : Collaborator W) (w : W),
    let r := run respond (commitAndPush trim) w in
    (forall e,
        In (Called (GitAdd ".") (Failed e)) (trace r) ->
        existsb is_commit (trace r) = false
        /\ existsb is_pull (trace r) = false
        /\ existsb is_push (trace r) = false
        /\ incl (report e "提交代码") (trace r)
        /\ outcome r = Returned tt)
    /\ (forall msg e,
           In (Called (GitCommit msg) (Failed e)) (trace r) ->
           existsb is_pull (trace r) = false
           /\ existsb is_push (trace r) = false
           /\ incl (report e "提交代码") (trace r)
           /\ outcome r = Returned tt).
Proof.
  intros W respond w. cbv zeta. split.
  - by_sat respond w. unfold commitAndPush. exec.
    all: intros e H; failed_call H.
    all: injection H as <-.
    all: repeat (split; [reflexivity |]).
    all: split; [reported | reflexivity].
  - by_sat respond w. unfold commitAndPush. exec.
    all: intros msg e H; failed_call H.
    all: injection H as _ <-.
    all: repeat (split; [reflexivity |]).
    all: split; [reported | reflexivity].
Qed.

(** X11. Commit-and-sync: a push call is made only after add, commit of the
    trimmed message and pull succeeded; it pushes the branch queried at the
    start to the default remote. *)
Theorem sync_pushes_current_branch_to_default_remote :
  forall (W : Type) (respond : Collaborator W) (w : W)
         (remote : option string) (branch : string) (res : Reply),
    let r := run respond (commitAndPush trim) w in
    In (Called (GitPush remote branch) res) (trace r) ->
    count is_push (trace r) = 1
    /\ outcome r = Returned tt
    /\ exists cur st typed p remotes,
        In (Called GitBranch (RBranch cur)) (trace r)
        /\ branch = Branch.current cur
        /\ In (Called GitStatus (RStatus st)) (trace r)
        /\ (Status.modified st <> [] \/ Status.not_added st <> [])
        /\ In (Called (Prompt [QInput "msg" "请输入提交信息:" None
                                      (Some (NonBlank "提交信息不能为空"))])
                      (RAnswers [AStr typed])) (trace r)
        /\ In (Called (GitAdd ".") RDone) (trace r)
        /\ In (Called (GitCommit (trim typed)) RDone) (trace r)
        /\ In (Called GitPull (RPull p)) (trace r)
        /\ In (Called (GitGetRemotes true) (RRemotes remotes)) (trace r)
        /\ remotes <> []
        /\ remote = js_or (opt_name (find (fun x => name x =? "origin") remotes))
                          (opt_name (hd_error remotes)).
Proof.
  intros W respond w remote branch res. revert remote branch res.
  by_sat respond w. unfold commitAndPush. exec.
  all: intros remote branch res H; failed_call H.
  all: injection H as <- <- _.
  all: split; [reflexivity |]; split; [reflexivity |].
  all: exists x, x0, (fst x1), x4, x5.
  all: split; [in_trace |]; split; [reflexivity |]; split; [in_trace |].
  all: split;
    [ destruct x0 as [cur trk ah bh [| m ms] [| n ns] stg]; cbn in *;
      first [discriminate | left; discriminate | right; discriminate] |].
  all: repeat (split; [solve [in_trace] |]).
  all: split; [intros ->; discriminate |].
  all: destruct x5; reflexivity.
Qed.

Lemma handlers_settled :
  sat showStatus (fun tr _ => settled tr = true)
  /\ sat (commitAndPush trim) (fun tr _ => settled tr = true)
  /\ sat pullCode (fun tr _ => settled tr = true)
  /\ sat pushCode (fun tr _ => settled tr = true)
  /\ sat manageBranches (fun tr _ => settled tr = true)
  /\ sat mergeBranch (fun tr _ => settled tr = true)
  /\ sat (manageRemotes trim) (fun tr _ => settled tr = true).
Proof.
  repeat split.
  - unfold showStatus. exec. all: reflexivity.
  - unfold commitAndPush. exec. all: reflexivity.
  - unfold pullCode. exec. all: reflexivity.
  - unfold pushCode. exec. all: reflexivity.
  - unfold manageBranches. exec. all: reflexivity.
  - unfold mergeBranch. exec. all: reflexivity.
  - unfold manageRemotes. exec. all: reflexivity.
Qed.

(** X12. Whatever the action, no call follows a failed call within the
    handler: nothing is retried and the sequence stops at the first failure. *)
Theorem no_call_after_a_failure :
  forall (W : Type) (respond : Collaborator W) (w : W) (action : string),
    settled (trace (run respond (executeAction trim action) w)) = true.
Proof.
  intros W respond w action. by_sat respond w.
  destruct handlers_settled as (H1 & H2 & H3 & H4 & H5 & H6 & H7).
  unfold executeAction.
  repeat match goal with
         | |- sat (if ?b then _ else _) _ => destruct b
         end; try assumption; reflexivity.
Qed.

(** X13. Every action other than remote management and exit returns normally
    whatever fails, and each failed call is reported through handleError. *)
Theorem other_actions_always_return :
  forall (W : Type) (respond : Collaborator W) (w : W) (action : string),
    let r := run respond (executeAction trim action) w in
    action <> ACTIONS.REMOTE_MANAGE ->
    action <> ACTIONS.EXIT ->
    outcome r = Returned tt
    /\ forall c e, In (Called c (Failed e)) (trace r) ->
                   exists operation, incl (report e operation) (trace r).
Proof.
  intros W respond w action. cbv zeta. intros Hr He. by_sat respond w.
  eapply sat_conseq; [exact (other_actions_handled trim action Hr He) |].
  intros tr out (_ & Hout & Hrep). split; assumption.
Qed.

(** X14. Remote management: a choice other than add, update and delete ends
    the handler right after the menu; only the listing and the menu were
    called. *)
Theorem remote_menu_back_does_nothing :
  forall (W : Type) (respond : Collaborator W) (w : W) (choice : string),
    let r := run respond (manageRemotes trim) w in
    In (Called remoteMenu (RAnswers [AStr choice])) (trace r) ->
    choice <> REMOTE_ACTIONS.ADD ->
    choice <> REMOTE_ACTIONS.UPDATE ->
    choice <> REMOTE_ACTIONS.DELETE ->
    count is_call (trace r) = 2
    /\ ends_with [Called remoteMenu (RAnswers [AStr choice])] (trace r)
    /\ outcome r = Returned tt.
Proof.
  intros W respond w choice. revert choice. by_sat respond w.
  unfold manageRemotes. exec.
  all: intros choice H Ha Hu Hd; failed_call H.
  all: injection H as <-.
  all: repeat match goal with
              | Hb : (_ =? _) = true |- _ => apply String.eqb_eq in Hb; try contradiction
              end.
  all: split; [reflexivity |]; split; [| reflexivity].
  - eexists [_; _]. reflexivity.
  - eexists [_; _; _]. reflexivity.
Qed.

Lemma inner_no_menu_count (h : list Entry) :
  forallb inner h = true -> count is_menu h = 0.
Proof.
  induction h as [| x h IH]; [reflexivity |].
  cbn. intros H. apply andb_true_iff in H. destruct H as [Hx Hh].
  apply inner_not_loop_prompt in Hx. destruct Hx as [_ Hm].
  unfold count in *. cbn. rewrite Hm. auto.
Qed.

Lemma recovered_no_menu_count (e : Err) (rest : list Entry) (out : Outcome unit) :
  Recovered e rest out -> count is_menu rest = 0.
Proof.
  intros [Ht | answer Ht]; [reflexivity |].
  rewrite count_app. unfold report. destruct (truthy (stderr e)); reflexivity.
Qed.

Lemma count_menu_answered (b : Branch.t) (answer : Reply) (rest : list Entry) :
  count is_menu (menu_head b ++ Called mainMenu answer :: rest)
  = S (count is_menu rest).
Proof. reflexivity. Qed.

(** X15. A pass of the loop starts with the branch query and presents the
    main menu at most once, and only after the branch query succeeded. *)
Theorem pass_asks_branch_then_menu :
  forall (W : Type) (respond : Collaborator W) (w : W),
    let r := run respond (iteration trim) w in
    exists first,
      hd_error (trace r) = Some (Called GitBranch first)
      /\ count is_menu (trace r) <= 1
      /\ (count is_menu (trace r) = 1 -> exists b, first = RBranch b).
Proof.
  intros W respond w. by_sat respond w.
  eapply sat_conseq; [apply (iteration_pass trim) |].
  intros tr out HP.
  destruct HP as [e rest out HR | b e rest out HR | b | b a h e rest out Ha Hin Hl HR
                 | b a h s Ha Hin | b a h e rest out Ha Hin HR].
  - exists (Failed e). split; [reflexivity |].
    change (count is_menu (Called GitBranch (Failed e) :: rest))
      with (count is_menu rest).
    rewrite (recovered_no_menu_count _ _ _ HR). split; [lia | discriminate].
  - exists (RBranch b). split; [reflexivity |].
    rewrite count_menu_answered, (recovered_no_menu_count _ _ _ HR).
    split; [lia | eauto].
  - exists (RBranch b). split; [reflexivity |]. split; [cbn; lia | eauto].
  - exists (RBranch b). split; [reflexivity |].
    rewrite count_menu_answered, count_app, (inner_no_menu_count _ Hin),
      (recovered_no_menu_count _ _ _ HR).
    split; [lia | eauto].
  - exists (RBranch b). split; [reflexivity |].
    rewrite count_menu_answered, count_app, (inner_no_menu_count _ Hin).
    split; [cbn; lia | eauto].
  - exists (RBranch b). split; [reflexivity |].
    rewrite count_menu_answered, count_app, (inner_no_menu_count _ Hin).
    change (count is_menu (Called pausePrompt (Failed e) :: rest))
      with (count is_menu rest).
    rewrite (recovered_no_menu_count _ _ _ HR).
    split; [lia | eauto].
Qed.

(** X16. The program starts with the repository check and never repeats it;
    unless the check answers true, no other call is made. *)
Theorem repository_is_checked_once_first :
  forall (W : Type) (respond : Collaborator W) (w : W) (fuel : nat),
    let r := run respond (program trim fuel) w in
    exists first rest,
      trace r = Called GitCheckIsRepo first :: rest
      /\ (forall again, ~ In (Called GitCheckIsRepo again) rest)
      /\ (first <> RBool true -> existsb is_call rest = false).
Proof.
  intros W respond w fuel. by_sat respond w.
  unfold program, main, checkIsRepo. exec.
  - eexists _, _. split; [reflexivity |]. split; [| reflexivity].
    intros again H. failed_call H.
  - eexists _, _. split; [reflexivity |]. split; [| reflexivity].
    intros again H. failed_call H.
  - destruct x; [| discriminate].
    apply sat_try. eapply sat_conseq; [apply (loop_looping trim) |].
    intros tr out (L1 & _ & _ & _ & L5).
    destruct out as [u | e | code]; [| elim (L1 e); reflexivity |].
    + exists (RBool true), tr. split; [reflexivity |]. split; [exact L5 |].
      intros H. elim H. reflexivity.
    + exists (RBool true), tr. split; [reflexivity |]. split; [exact L5 |].
      intros H. elim H. reflexivity.
Qed.

End More.

(** ** The earlier [main]: rules and properties *)

Lemma legacy_sat_run {R : Type} (p : Legacy.Prog R) :
  forall (Q : list Legacy.Entry -> Outcome R -> Prop),
    Legacy.sat p Q ->
    forall (W : Type) (respond : Collaborator W) (w : W),
      Q (Legacy.trace (Legacy.run respond p w)) (Legacy.outcome (Legacy.run respond p w)).
Proof.
  induction p as [r | e | code | o k IH | c k IH]; simpl; intros Q HQ W respond w; auto.
  - exact (IH _ HQ W respond w).
  - destruct (respond c w) as [r w1]. simpl. exact (IH r _ (HQ r) W respond w1).
Qed.

Ltac legacy_stuck_on p :=
  lazymatch p with
  | Legacy.try_catch ?q _ => legacy_stuck_on q
  | Legacy.bind ?q _ => legacy_stuck_on q
  | Legacy.Log _ ?q => legacy_stuck_on q
  | match ?b with _ => _ end => b
  end.

Ltac legacy_step :=
  lazymatch goal with
  | |- forall r : (Err + _)%type, _ => intros [?err | ?x]
  | |- Legacy.sat ?p _ => let b := legacy_stuck_on p in destruct b eqn:?
  end; cbn; unfold Legacy.when; cbn.

Ltac legacy_exec := unfold Legacy.main; cbn; unfold Legacy.when; cbn; repeat legacy_step.

Ltac legacy_by_sat respond w :=
  cbv zeta;
  lazymatch goal with
  | |- context [Legacy.run respond ?p w] =>
      pattern (Legacy.trace (Legacy.run respond p w)),
              (Legacy.outcome (Legacy.run respond p w));
      lazymatch goal with
      | |- ?Q _ _ => refine (legacy_sat_run p Q _ _ respond w)
      end
  end.

(** The case the menu answer [Hsel : _ = label] rules out. *)
Ltac other_case Hsel :=
  repeat match goal with
         | Hb : (_ =? _) = _ |- _ => rewrite Hsel in Hb; cbn in Hb; try discriminate Hb;
                                     clear Hb
         end.

(** X17. The earlier main: a failed pull is reported and no push call is
    made. *)
Theorem legacy_failed_pull_suppresses_push :
  forall (W : Type) (respond : Collaborator W) (w : W),
    let r := Legacy.run respond Legacy.main w in
    existsb Legacy.pull_failed (Legacy.trace r) = true ->
    existsb Legacy.is_push (Legacy.trace r) = false
    /\ Legacy.outcome r = Returned tt
    /\ exists e,
        In (Legacy.Called GitPull (Failed e)) (Legacy.trace r)
        /\ In (Legacy.Logged (Legacy.LineText Red "❌ 拉取失败:" (message e)))
              (Legacy.trace r).
Proof.
  intros W respond w. legacy_by_sat respond w. legacy_exec.
  all: try (intros; discriminate).
  all: intros _; split; [reflexivity |]; split; [reflexivity |].
  all: eexists; split; in_trace.
Qed.

(** X18. The earlier main, commit case: with no remote configured the push
    is still called, with an undefined remote. *)
Theorem legacy_pushes_without_a_remote :
  forall (W : Type) (respond : Collaborator W) (w : W),
    let r := Legacy.run respond Legacy.main w in
    In (Legacy.Called Legacy.menu
          (RAnswers [AStr "提交代码 (add. && commit && pull && push)"]))
       (Legacy.trace r) ->
    In (Legacy.Called (GitGetRemotes true) (RRemotes [])) (Legacy.trace r) ->
    Legacy.outcome r = Returned tt
    /\ exists cur res,
        In (Legacy.Called GitBranch (RBranch cur)) (Legacy.trace r)
        /\ In (Legacy.Called (GitPush None (Branch.current cur)) res) (Legacy.trace r)
        /\ (res = RDone ->
            In (Legacy.Logged
                  (Legacy.Modern
                     (Line Green ("🚀 已自动推送到 undefined/" ++ Branch.current cur))))
               (Legacy.trace r)).
Proof.
  intros W respond w. legacy_by_sat respond w. legacy_exec.
  all: intros Hm H; failed_call Hm; failed_call H.
  all: injection Hm as Hsel; other_case Hsel.
  all: injection H as ->.
  all: split; [reflexivity |].
  all: eexists _, _; split; [in_trace |]; split; [in_trace |].
  all: intros Hr; try discriminate Hr; in_trace.
Qed.

(** X19. The earlier main: a rejection of any call outside pull, merge,
    remote listing and push leaves main uncaught; a rejected pull or merge
    is reported and main returns. *)
Theorem legacy_leaves_failures_uncaught :
  forall (W : Type) (respond : Collaborator W) (w : W) (c : Cmd) (e : Err),
    let r := Legacy.run respond Legacy.main w in
    In (Legacy.Called c (Failed e)) (Legacy.trace r) ->
    (Legacy.unguarded c = true -> Legacy.outcome r = Thrown e)
    /\ (c = GitPull \/ (exists options, c = GitMerge options) ->
        Legacy.outcome r = Returned tt).
Proof.
  intros W respond w c e. revert c e. legacy_by_sat respond w. legacy_exec.
  all: intros c e H; failed_call H.
  all: injection H as <- <-.
  all: split; [intros Hu; try discriminate Hu; reflexivity |].
  all: intros [Hc | [options Hc]]; try discriminate Hc; reflexivity.
Qed.

(** X20. The earlier main exits with code 1 only right after the repository
    check answered false, and with code 0 only when exit was chosen at the
    menu. *)
Theorem legacy_exit_codes :
  forall (W : Type) (respond : Collaborator W) (w : W) (code : Z),
    let r := Legacy.run respond Legacy.main w in
    Legacy.outcome r = Exited code ->
    (code = 1%Z
     /\ Legacy.trace r
        = [Legacy.Called GitCheckIsRepo (RBool false);
           Legacy.Logged (Legacy.Modern (Line Red "❌ 当前目录不是一个 Git 仓库"))])
    \/ (code = 0%Z
        /\ exists b,
            Legacy.trace r
            = [Legacy.Called GitCheckIsRepo (RBool true);
               Legacy.Called GitBranch (RBranch b);
               Legacy.Logged (Legacy.Modern (Line Blue ("📂 当前分支: " ++ Branch.current b)));
               Legacy.Called Legacy.menu (RAnswers [AStr "退出"]);
               Legacy.Logged (Legacy.Plain "👋 退出 myGit")]).
Proof.
  intros W respond w code. revert code. legacy_by_sat respond w. legacy_exec.
  all: intros code H; try discriminate H.
  all: injection H as <-.
  - left. destruct x; [discriminate |]. split; reflexivity.
  - right. destruct x; [| discriminate]. split; [reflexivity |].
    exists x0.
    match goal with Hb : (_ =? "退出") = true |- _ => apply String.eqb_eq in Hb; rewrite Hb end.
    reflexivity.
Qed.

(** X21. The earlier main, merge case: the list offered excludes the current
    branch, and the chosen branch is merged without any confirmation. *)
Theorem legacy_merges_without_confirmation :
  forall (W : Type) (respond : Collaborator W) (w : W)
         (choices : list string) (chosen : string),
    let r := Legacy.run respond Legacy.main w in
    In (Legacy.Called (Prompt [QList "branch" "选择要合并的分支:" choices None])
                      (RAnswers [AStr chosen])) (Legacy.trace r) ->
    existsb Legacy.is_confirm (Legacy.trace r) = false
    /\ Legacy.outcome r = Returned tt
    /\ exists cur loc res,
        In (Legacy.Called GitBranch (RBranch cur)) (Legacy.trace r)
        /\ In (Legacy.Called GitBranchLocal (RBranch loc)) (Legacy.trace r)
        /\ choices = filter (fun b => negb (b =? Branch.current cur)) (Branch.all loc)
        /\ ~ In (Branch.current cur) choices
        /\ In (Legacy.Called (GitMerge [chosen]) res) (Legacy.trace r).
Proof.
  intros W respond w choices chosen. revert choices chosen.
  legacy_by_sat respond w. legacy_exec.
  all: intros choices chosen H; failed_call H.
  all: injection H as <- <-.
  all: split; [reflexivity |]; split; [reflexivity |].
  all: eexists _, _, _; split; [in_trace |]; split; [in_trace |].
  all: split; [reflexivity |]; split; [| in_trace].
  all: intros Hin; apply filter_In in Hin; destruct Hin as [_ Hin].
  all: rewrite String.eqb_refl in Hin; discriminate Hin.
Qed.

(** X22. The earlier main, branch case: the chosen branch is checked out
    even when it is the current one; a rejected checkout leaves main
    uncaught. *)
Theorem legacy_checks_out_whatever_is_chosen :
  forall (W : Type) (respond : Collaborator W) (w : W)
         (choices : list string) (d : option string) (chosen : string),
    let r := Legacy.run respond Legacy.main w in
    In (Legacy.Called (Prompt [QList "branch" "选择要切换的分支:" choices d])
                      (RAnswers [AStr chosen])) (Legacy.trace r) ->
    exists loc res,
      In (Legacy.Called GitBranchLocal (RBranch loc)) (Legacy.trace r)
      /\ choices = Branch.all loc
      /\ d = Some (Branch.current loc)
      /\ In (Legacy.Called (GitCheckout chosen) res) (Legacy.trace r)
      /\ (forall e, res = Failed e -> Legacy.outcome r = Thrown e)
      /\ (res = RDone -> Legacy.outcome r = Returned tt).
Proof.
  intros W respond w choices d chosen. revert choices d chosen.
  legacy_by_sat respond w. legacy_exec.
  all: intros choices d chosen H; failed_call H.
  all: injection H as <- <- <-.
  all: eexists _, _; split; [in_trace |]; split; [reflexivity |]; split; [reflexivity |].
  all: split; [in_trace |].
  all: split; [intros e Hr; try discriminate Hr; injection Hr as <-; reflexivity
              | intros Hr; try discriminate Hr; reflexivity].
Qed.

(** ** These properties at concrete inputs *)

Lemma push_without_remotes_witness :
  outcome (run scripted pushCode [RRemotes []]) = Returned tt
  /\ existsb is_prompt (trace (run scripted pushCode [RRemotes []])) = false.
Proof.
  destruct (push_without_remotes _ scripted [RRemotes []]) as [Ht Ho].
  - vm_compute. left. reflexivity.
  - split; [exact Ho |]. rewrite Ht. reflexivity.
Defined.

Lemma push_goes_where_answered_witness :
  count is_push (trace (run scripted pushCode push_to_origin)) = 1.
Proof.
  refine (proj1 (push_goes_where_answered _ scripted push_to_origin
                   (Some "origin") "main" RDone _)).
  vm_compute. do 4 right. left. reflexivity.
Defined.

Lemma remote_edit_needs_a_remote_witness :
  outcome (run scripted (updateRemote ascii_trim) [RRemotes []]) = Returned tt
  /\ outcome (run scripted deleteRemote [RRemotes []]) = Returned tt.
Proof.
  destruct (remote_edit_needs_a_remote ascii_trim _ scripted [RRemotes []]) as [Hu Hd].
  split.
  - apply Hu. vm_compute. left. reflexivity.
  - apply Hd. vm_compute. left. reflexivity.
Defined.

Lemma switch_only_to_another_branch_witness :
  existsb is_checkout (trace (run scripted manageBranches stay_on_main)) = false
  /\ count is_checkout (trace (run scripted manageBranches switch_to_dev)) = 1.
Proof.
  split.
  - destruct (switch_only_to_another_branch _ scripted stay_on_main on_main
                "branch" "选择要切换的分支:" ["main"; "dev"] (Some "main") "main")
      as (_ & _ & _ & H & _).
    + vm_compute. left. reflexivity.
    + vm_compute. do 4 right. left. reflexivity.
    + exact (proj1 (H eq_refl)).
  - destruct (switch_only_to_another_branch _ scripted switch_to_dev on_main
                "branch" "选择要切换的分支:" ["main"; "dev"] (Some "main") "dev")
      as (_ & _ & _ & _ & H).
    + vm_compute. left. reflexivity.
    + vm_compute. do 4 right. left. reflexivity.
    + apply H. discriminate.
Defined.

Lemma delete_remote_needs_confirmation_witness :
  count is_remove (trace (run scripted deleteRemote delete_origin)) = 1
  /\ existsb is_remove (trace (run scripted deleteRemote keep_origin)) = false.
Proof.
  split.
  - destruct (delete_remote_needs_confirmation _ scripted delete_origin) as [H _].
    refine (proj1 (H "origin" RDone _)).
    vm_compute. do 3 right. left. reflexivity.
  - destruct (delete_remote_needs_confirmation _ scripted keep_origin) as [_ H].
    refine (proj1 (H "confirm" "确定要删除远程仓库 origin 吗?" false _)).
    vm_compute. do 2 right. left. reflexivity.
Defined.

Lemma add_remote_trims_input_witness :
  let r := run scripted (addRemote ascii_trim) add_origin in
  In (Called (GitAddRemote "origin" "git@host:o.git") RDone) (trace r)
  /\ outcome r = Returned tt.
Proof.
  cbv zeta.
  assert (H : In (Called (GitAddRemote "origin" "git@host:o.git") RDone)
                 (trace (run scripted (addRemote ascii_trim) add_origin)))
    by (vm_compute; right; left; reflexivity).
  split; [exact H |].
  exact (proj1 (add_remote_trims_input ascii_trim _ scripted add_origin _ _ _ H)).
Defined.

Lemma update_remote_sets_url_witness :
  let r := run scripted (updateRemote ascii_trim) move_origin in
  In (Called (GitRemote ["set-url"; "origin"; "git@host:new.git"]) RDone) (trace r)
  /\ outcome r = Returned tt.
Proof.
  cbv zeta.
  assert (H : In (Called (GitRemote ["set-url"; "origin"; "git@host:new.git"]) RDone)
                 (trace (run scripted (updateRemote ascii_trim) move_origin)))
    by (vm_compute; do 2 right; left; reflexivity).
  split; [exact H |].
  exact (proj1 (update_remote_sets_url ascii_trim _ scripted move_origin _ _ H)).
Defined.

Lemma status_says_clean_when_clean_witness :
  In (Logged (Line Green "✅ 工作区干净，没有修改"))
     (trace (run scripted showStatus [RStatus spotless]))
  /\ ~ In (Logged (Line Green "✅ 工作区干净，没有修改"))
         (trace (run scripted showStatus [RStatus clean])).
Proof.
  split.
  - destruct (status_says_clean_when_clean _ scripted [RStatus spotless] spotless)
      as (_ & _ & H & _).
    + vm_compute. left. reflexivity.
    + apply H. repeat split.
  - destruct (status_says_clean_when_clean _ scripted [RStatus clean] clean)
      as (_ & _ & H & _).
    + vm_compute. left. reflexivity.
    + intros Hin. apply H in Hin. destruct Hin as (_ & _ & Hs). discriminate Hs.
Defined.

Lemma pull_says_up_to_date_when_unchanged_witness :
  In (Logged (Line Green "✅ 已是最新版本"))
     (trace (run scripted pullCode [RPull up_to_date]))
  /\ ~ In (Logged (Line Green "✅ 已是最新版本"))
         (trace (run scripted pullCode [RPull three_changes])).
Proof.
  split.
  - destruct (pull_says_up_to_date_when_unchanged _ scripted [RPull up_to_date] up_to_date)
      as (_ & _ & H & _).
    + vm_compute. right. left. reflexivity.
    + apply H. repeat split.
  - destruct (pull_says_up_to_date_when_unchanged _ scripted [RPull three_changes]
                three_changes) as (_ & _ & H & _).
    + vm_compute. right. left. reflexivity.
    + intros Hin. apply H in Hin. destruct Hin as (Hc & _). discriminate Hc.
Defined.

Lemma failed_commit_stops_sync_witness :
  let r := run scripted (commitAndPush ascii_trim) commit_rejected in
  existsb is_pull (trace r) = false /\ existsb is_push (trace r) = false.
Proof.
  cbv zeta.
  destruct (failed_commit_stops_sync ascii_trim _ scripted commit_rejected) as [_ H].
  destruct (H "fix typo" git_error) as (H1 & H2 & _).
  - vm_compute. do 6 right. left. reflexivity.
  - split; [exact H1 | exact H2].
Defined.

Lemma sync_pushes_current_branch_to_default_remote_witness :
  let r := run scripted (commitAndPush ascii_trim) sync_succeeds in
  In (Called (GitPush (Some "origin") "main") RDone) (trace r)
  /\ count is_push (trace r) = 1.
Proof.
  cbv zeta.
  assert (H : In (Called (GitPush (Some "origin") "main") RDone)
                 (trace (run scripted (commitAndPush ascii_trim) sync_succeeds)))
    by (vm_compute; do 13 right; left; reflexivity).
  split; [exact H |].
  exact (proj1 (sync_pushes_current_branch_to_default_remote
                  ascii_trim _ scripted sync_succeeds _ _ _ H)).
Defined.

Lemma other_actions_always_return_witness :
  outcome (run scripted (executeAction ascii_trim ACTIONS.PULL) [Failed git_error])
  = Returned tt.
Proof.
  refine (proj1 (other_actions_always_return ascii_trim _ scripted [Failed git_error]
                   ACTIONS.PULL _ _)); discriminate.
Defined.

Lemma remote_menu_back_does_nothing_witness :
  count is_call (trace (run scripted (manageRemotes ascii_trim) remote_menu_back)) = 2.
Proof.
  refine (proj1 (remote_menu_back_does_nothing ascii_trim _ scripted remote_menu_back
                   REMOTE_ACTIONS.BACK _ _ _ _)); try discriminate.
  vm_compute. do 3 right. left. reflexivity.
Defined.

Lemma pass_asks_branch_then_menu_witness :
  count is_menu (trace (run scripted (iteration ascii_trim) status_then_pause)) <= 1.
Proof.
  destruct (pass_asks_branch_then_menu ascii_trim _ scripted status_then_pause)
    as (first & _ & H & _).
  exact H.
Defined.

Lemma repository_is_checked_once_first_witness :
  exists rest,
    trace (run scripted (program ascii_trim 1) check_rejected)
    = Called GitCheckIsRepo (Failed git_error) :: rest
    /\ existsb is_call rest = false.
Proof.
  destruct (repository_is_checked_once_first ascii_trim _ scripted check_rejected 1)
    as (first & rest & Ht & _ & H).
  assert (Hf : first = Failed git_error).
  { vm_compute in Ht. injection Ht as <- _. reflexivity. }
  subst first. exists rest. split; [exact Ht |]. apply H. discriminate.
Defined.

Lemma legacy_failed_pull_suppresses_push_witness :
  let r := Legacy.run scripted Legacy.main legacy_pull_rejected in
  existsb Legacy.pull_failed (Legacy.trace r) = true
  /\ existsb Legacy.is_push (Legacy.trace r) = false.
Proof.
  cbv zeta.
  assert (H : existsb Legacy.pull_failed
                (Legacy.trace (Legacy.run scripted Legacy.main legacy_pull_rejected))
              = true) by (vm_compute; reflexivity).
  split; [exact H |].
  exact (proj1 (legacy_failed_pull_suppresses_push _ scripted legacy_pull_rejected H)).
Defined.

Lemma legacy_pushes_without_a_remote_witness :
  In (Legacy.Called (GitPush None "main") RDone)
     (Legacy.trace (Legacy.run scripted Legacy.main legacy_no_remote))
  /\ Legacy.outcome (Legacy.run scripted Legacy.main legacy_no_remote) = Returned tt.
Proof.
  split.
  - vm_compute. do 11 right. left. reflexivity.
  - refine (proj1 (legacy_pushes_without_a_remote _ scripted legacy_no_remote _ _)).
    + vm_compute. do 3 right. left. reflexivity.
    + vm_compute. do 10 right. left. reflexivity.
Defined.

Lemma legacy_leaves_failures_uncaught_witness :
  Legacy.outcome (Legacy.run scripted Legacy.main legacy_status_rejected)
  = Thrown git_error
  /\ Legacy.outcome (Legacy.run scripted Legacy.main legacy_pull_rejected) = Returned tt.
Proof.
  split.
  - refine (proj1 (legacy_leaves_failures_uncaught _ scripted legacy_status_rejected
                     GitStatus git_error _) _).
    + vm_compute. do 4 right. left. reflexivity.
    + reflexivity.
  - refine (proj2 (legacy_leaves_failures_uncaught _ scripted legacy_pull_rejected
                     GitPull git_error _) _).
    + vm_compute. do 8 right. left. reflexivity.
    + left. reflexivity.
Defined.

Lemma legacy_exit_codes_witness :
  Legacy.trace (Legacy.run scripted Legacy.main [RBool false])
  = [Legacy.Called GitCheckIsRepo (RBool false);
     Legacy.Logged (Legacy.Modern (Line Red "❌ 当前目录不是一个 Git 仓库"))].
Proof.
  destruct (legacy_exit_codes _ scripted [RBool false] 1) as [[_ H] | [H _]].
  - reflexivity.
  - exact H.
  - discriminate H.
Defined.

Lemma legacy_merges_without_confirmation_witness :
  let r := Legacy.run scripted Legacy.main legacy_merge_dev in
  existsb Legacy.is_confirm (Legacy.trace r) = false
  /\ In (Legacy.Called (GitMerge ["dev"]) RDone) (Legacy.trace r).
Proof.
  cbv zeta. split.
  - refine (proj1 (legacy_merges_without_confirmation _ scripted legacy_merge_dev
                     ["dev"] "dev" _)).
    vm_compute. do 5 right. left. reflexivity.
  - vm_compute. do 6 right. left. reflexivity.
Defined.

Lemma legacy_checks_out_whatever_is_chosen_witness :
  exists res,
    In (Legacy.Called (GitCheckout "main") res)
       (Legacy.trace (Legacy.run scripted Legacy.main legacy_stay_on_main)).
Proof.
  destruct (legacy_checks_out_whatever_is_chosen _ scripted legacy_stay_on_main
              ["main"; "dev"] (Some "main") "main") as (loc & res & _ & _ & _ & H & _).
  - vm_compute. do 5 right. left. reflexivity.
  - exists res. exact H.
Defined.
